(** * Urban Air Quality Monitoring: the multi-city ETL pipeline

    A shallow embedding of [extract.py], [transform.py], the KPI part of
    [etl_analysis.py], the batch insert of [load.py] and the first two steps
    of [run_pipeline.py], followed by the properties of the fetch, transform,
    aggregate and load stages.

    Conventions.
    - A pandas float cell is a binary64 value and a missing cell is NaN; the
      arithmetic is the IEEE 754 one of [SpecFloat] at precision 53.
    - A Python [dict] with string keys is a [gmap string _].
    - Code that raises returns [Raise e]; code that touches the disk, the
      network or the clock threads a [world] through its calls.
    - [print] calls are not modelled. *)

From Stdlib Require Import ZArith QArith Qabs List Bool Ascii String Lia SpecFloat.
From stdpp Require Import base option list strings gmap fin_maps.

Set Warnings "-register-all".

(** ** Binary64 *)

Module F64.

Definition prec : Z := 53.
Definition emax : Z := 1024.

Definition t : Type := spec_float.

Definition nan : t := S754_nan.
Definition of_Z (z : Z) : t := binary_normalize prec emax z 0 false.
Definition of_nat (n : nat) : t := of_Z (Z.of_nat n).

Definition add : t -> t -> t := SFadd prec emax.
Definition mul : t -> t -> t := SFmul prec emax.
Definition div : t -> t -> t := SFdiv prec emax.

(** Python's [<=], [<] and [>]: false as soon as one side is NaN. *)
Definition leb : t -> t -> bool := SFleb.
Definition ltb : t -> t -> bool := SFltb.
Definition gtb (x y : t) : bool := SFltb y x.

(** [pd.isna] on a float cell. *)
Definition isnan (x : t) : bool :=
  match x with S754_nan => true | _ => false end.

(** The decimal literal [m / 10^k], correctly rounded. *)
Definition of_decimal (m : Z) (k : nat) : t :=
  div (of_Z m) (of_Z (10 ^ Z.of_nat k)).

End F64.

Abbreviation float64 := F64.t.

Declare Scope f64_scope.
Delimit Scope f64_scope with f64.
Infix "+" := F64.add : f64_scope.
Infix "*" := F64.mul : f64_scope.
Infix "/" := F64.div : f64_scope.
Infix "<=?" := F64.leb : f64_scope.
Infix ">?" := F64.gtb : f64_scope.

(** ** Python strings (ASCII only) *)

Module Str.

Definition is_upper (c : ascii) : bool :=
  let n := nat_of_ascii c in (65 <=? n)%nat && (n <=? 90)%nat.
Definition is_lower (c : ascii) : bool :=
  let n := nat_of_ascii c in (97 <=? n)%nat && (n <=? 122)%nat.

Definition lower_ascii (c : ascii) : ascii :=
  if is_upper c then ascii_of_nat (nat_of_ascii c + 32) else c.
Definition upper_ascii (c : ascii) : ascii :=
  if is_lower c then ascii_of_nat (nat_of_ascii c - 32) else c.

(** [s.lower()] *)
Definition lower (s : string) : string :=
  string_of_list_ascii (map lower_ascii (list_ascii_of_string s)).

(** [s.capitalize()] *)
Definition capitalize (s : string) : string :=
  match s with
  | EmptyString => EmptyString
  | String c rest => String (upper_ascii c) (lower rest)
  end.

(** [s.replace(a, b)] for one-character [a] and [b]. *)
Definition replace (a b : ascii) (s : string) : string :=
  string_of_list_ascii
    (map (fun c => if Ascii.eqb c a then b else c) (list_ascii_of_string s)).

(** [s.split(sep)[0]] *)
Fixpoint before (sep : ascii) (s : string) : string :=
  match s with
  | EmptyString => EmptyString
  | String c rest => if Ascii.eqb c sep then EmptyString else String c (before sep rest)
  end.

(** The text after the last [sep] ([s] itself when there is none). *)
Fixpoint after_last (sep : ascii) (s : string) : string :=
  match s with
  | EmptyString => EmptyString
  | String c rest =>
      if existsb (Ascii.eqb sep) (list_ascii_of_string rest) then after_last sep rest
      else if Ascii.eqb c sep then rest else s
  end.

(** [s.rfind(c)], with [None] for -1. *)
Fixpoint rfind (c : ascii) (s : string) : option nat :=
  match s with
  | EmptyString => None
  | String d rest =>
      match rfind c rest with
      | Some i => Some (S i)
      | None => if Ascii.eqb d c then Some O else None
      end
  end.

(** [Path(p).stem]: the last component without its last suffix. *)
Definition stem (p : string) : string :=
  let name := after_last "/" p in
  match rfind "." name with
  | Some i =>
      if (0 <? i)%nat && (i <? String.length name - 1)%nat
      then String.substring 0 i name else name
  | None => name
  end.

End Str.

(** ** What [json.load] and [resp.json()] return

    The model covers the payloads below.  A cell of an hourly array is a
    JSON null, number or string (booleans and nested values are left out);
    a name of the hourly section is bound to an array or to a value without
    a length (a string or an object there is left out: pandas broadcasts
    the one and re-indexes by the other). *)

Inductive cell : Type :=
| CNull
| CNum (x : float64)
| CStr (s : string).

Inductive series : Type :=
| SList (cells : list cell)
| SUnsized (ty : string).   (* a null, number or boolean; [ty] is its Python type name *)

Inductive hourly_value : Type :=
| HMissing                          (* the payload has no "hourly" key *)
| HFalsy                            (* null, false, 0, an empty string or an empty array *)
| HDict (m : gmap string series)    (* an object, possibly empty *)
| HOther (ty : string).             (* any other truthy value of Python type [ty] *)

Inductive payload : Type :=
| PList (items : list payload)
| PDict (city : option string) (hourly : hourly_value)
| POther (ty : string).             (* a null, boolean, number or string *)

(** ** Exceptions and results *)

Inductive exn_class : Type :=
| AttributeError | TypeError | ValueError | FileNotFoundError
| JSONDecodeError | OSError | RequestException.

Record exn : Type := Exn { exn_type : exn_class; exn_str : string }.

Inductive outcome (A : Type) : Type :=
| Ok (a : A)
| Raise (e : exn).
Arguments Ok {A} a.
Arguments Raise {A} e.

Definition no_attribute (ty attr : string) : exn :=
  Exn AttributeError ("'" +:+ ty +:+ "' object has no attribute '" +:+ attr +:+ "'").
Definition no_len (ty : string) : exn :=
  Exn TypeError ("object of type '" +:+ ty +:+ "' has no len()").

(** ** The staged frame: one row per hour *)

Module Frame.

Record row : Type := Row {
  time : option Z;              (* seconds since the epoch; [None] is NaT *)
  pm10 : float64;
  pm2_5 : float64;
  carbon_monoxide : float64;
  nitrogen_dioxide : float64;
  sulphur_dioxide : float64;
  ozone : float64;
  uv_index : float64;
  city : string;
  hour : option Z;              (* [None] is NaN *)
  AQI_category : string;
  severity_score : float64;
  risk : string
}.

End Frame.

(** ** The world outside the process *)

Inductive file : Type :=
| JsonFile (p : payload)
| TextFile (p : payload)             (* [repr(payload)] *)
| CsvFile (rows : list Frame.row).

Record response : Type := Response {
  status_error : option string;      (* what [raise_for_status] raises, if anything *)
  body : string + payload            (* [inl msg]: [resp.json()] raises with text [msg] *)
}.

Inductive reply : Type :=
| Unreachable (msg : string)         (* [requests.get] raises: connection error, timeout *)
| Reply (r : response).

Inductive event : Type :=
| Get (lat lon : float64)            (* one [requests.get] *)
| Sleep (seconds : Z)                (* [time.sleep(backoff)] *)
| Pause.                             (* [time.sleep(SLEEP_BETWEEN_CALLS)] *)

Record world : Type := World {
  files : gmap string file;
  write_error : string -> option string;  (* [open(path, "w")] fails with this text *)
  replies : nat -> reply;                 (* the reply to the n-th request of the run *)
  sent : nat;                             (* requests sent so far *)
  utc_stamp : string;                     (* [utcnow().strftime("%Y%m%dT%H%M%SZ")] *)
  local_stamp : string;                   (* [now().strftime("%Y%m%d_%H%M%S")] *)
  trace : list event                      (* requests and sleeps so far, oldest first *)
}.

Definition IO (A : Type) : Type := world -> outcome A * world.

Definition ret {A} (a : A) : IO A := fun w => (Ok a, w).
Definition raise {A} (e : exn) : IO A := fun w => (Raise e, w).
Definition bind {A B} (m : IO A) (k : A -> IO B) : IO B :=
  fun w => match m w with
           | (Ok a, w') => k a w'
           | (Raise e, w') => (Raise e, w')
           end.
(** [try: m  except Exception as e: h e] *)
Definition try_except {A} (m : IO A) (h : exn -> IO A) : IO A :=
  fun w => match m w with
           | (Ok a, w') => (Ok a, w')
           | (Raise e, w') => h e w'
           end.
(** Lifting a computation that only raises. *)
Definition lift {A} (o : outcome A) : IO A := fun w => (o, w).

Declare Scope io_scope.
Delimit Scope io_scope with io.
Notation "x <- m ;; k" := (bind m (fun x => k))
  (at level 100, m at next level, right associativity) : io_scope.
Notation "m ;; k" := (bind m (fun _ => k))
  (at level 100, right associativity) : io_scope.

Definition record_event (e : event) : IO unit :=
  fun w => (Ok tt, World (files w) (write_error w) (replies w) (sent w)
                         (utc_stamp w) (local_stamp w) (trace w ++ [e])).

Definition sleep (seconds : Z) : IO unit := record_event (Sleep seconds).

(** [with open(path, "w") as f: ...] *)
Definition write_file (path : string) (content : file) : IO unit :=
  fun w => match write_error w path with
           | Some msg => (Raise (Exn OSError msg), w)
           | None => (Ok tt, World (<[path := content]> (files w)) (write_error w)
                                   (replies w) (sent w) (utc_stamp w) (local_stamp w)
                                   (trace w))
           end.

(** [with open(path, "r") as f: json.load(f)].  The text of a decoding error
    depends on the file and is not modelled. *)
Definition read_json (path : string) : IO payload :=
  fun w => match files w !! path with
           | Some (JsonFile p) => (Ok p, w)
           | Some _ => (Raise (Exn JSONDecodeError EmptyString), w)
           | None => (Raise (Exn FileNotFoundError
                        ("[Errno 2] No such file or directory: '" +:+ path +:+ "'")), w)
           end.

(** ** extract.py *)

Module Extract.

Inductive fetch_result : Type :=
| Success (city raw_path : string)          (* success = "true" *)
| Failure (city : string) (error : option string).   (* success = "false" *)

Section Config.

Variable RAW_DIR : string.      (* the resolved directory, with its trailing separator *)
Variable MAX_RETRIES : Z.

Definition _now_ts : IO string := fun w => (Ok (utc_stamp w), w).

Definition raw_name (city ts ext : string) : string :=
  Str.lower (Str.replace " " "_" city) +:+ "_raw_" +:+ ts +:+ ext.

(** [_save_raw], lines 39-52. *)
Definition _save_raw (p : payload) (city : string) : IO string :=
  (ts <- _now_ts ;;
   try_except
     (let path := RAW_DIR +:+ raw_name city ts ".json" in
      write_file path (JsonFile p) ;; ret path)
     (fun _ =>
      let path := RAW_DIR +:+ raw_name city ts ".txt" in
      write_file path (TextFile p) ;; ret path))%io.

(** [requests.get(API_BASE, params=params, timeout=TIMEOUT_SECONDS)] *)
Definition requests_get (lat lon : float64) : IO response :=
  fun w =>
    let w' := World (files w) (write_error w) (replies w) (S (sent w))
                    (utc_stamp w) (local_stamp w) (trace w ++ [Get lat lon]) in
    match replies w (sent w) with
    | Unreachable msg => (Raise (Exn RequestException msg), w')
    | Reply r => (Ok r, w')
    end.

Definition raise_for_status (r : response) : IO unit :=
  match status_error r with
  | Some msg => raise (Exn RequestException msg)
  | None => ret tt
  end.

Definition response_json (r : response) : IO payload :=
  match body r with
  | inl msg => raise (Exn JSONDecodeError msg)
  | inr p => ret p
  end.

(** The body of the [try], lines 63-73. *)
Definition attempt_once (city : string) (lat lon : float64) : IO fetch_result :=
  (resp <- requests_get lat lon ;;
   raise_for_status resp ;;
   p <- response_json resp ;;
   saved_path <- _save_raw p city ;;
   ret (Success city saved_path))%io.

(** The [while attempt < MAX_RETRIES] loop, lines 60-83; [remaining] is
    [MAX_RETRIES - attempt].  Both [except] clauses do the same. *)
Fixpoint fetch_loop (city : string) (lat lon : float64)
    (remaining : nat) (attempt : Z) (last_error : option string) : IO fetch_result :=
  match remaining with
  | O => ret (Failure city last_error)
  | S remaining' =>
      let attempt := (attempt + 1)%Z in
      fun w =>
        match attempt_once city lat lon w with
        | (Ok res, w') => (Ok res, w')
        | (Raise e, w') =>
            let last_error := Some (exn_str e) in
            let backoff := (2 ^ (attempt - 1))%Z in
            (sleep backoff ;;
             fetch_loop city lat lon remaining' attempt last_error)%io w'
        end
  end.

(** [_fetch_city], lines 55-86. *)
Definition _fetch_city (city : string) (lat lon : float64) : IO fetch_result :=
  fetch_loop city lat lon (Z.to_nat MAX_RETRIES) 0%Z None.

(** [fetch_all_cities], lines 89-95. *)
Fixpoint fetch_all (cities : list (string * (float64 * float64))) : IO (list fetch_result) :=
  match cities with
  | [] => ret []
  | (city, (lat, lon)) :: rest =>
      (res <- _fetch_city city lat lon ;;
       record_event Pause ;;
       results <- fetch_all rest ;;
       ret (res :: results))%io
  end.

End Config.

Definition CITIES_COORDS : list (string * (float64 * float64)) :=
  [ ("Delhi", (F64.of_decimal 287041 4, F64.of_decimal 771025 4));
    ("Mumbai", (F64.of_decimal 190760 4, F64.of_decimal 728777 4));
    ("Bengaluru", (F64.of_decimal 129716 4, F64.of_decimal 775946 4));
    ("Hyderabad", (F64.of_decimal 173850 4, F64.of_decimal 784867 4));
    ("Kolkata", (F64.of_decimal 225726 4, F64.of_decimal 883639 4)) ].

Definition fetch_all_cities (RAW_DIR : string) (MAX_RETRIES : Z) : IO (list fetch_result) :=
  fetch_all RAW_DIR MAX_RETRIES CITIES_COORDS.

End Extract.

(** ** transform.py *)

Module Transform.

Import Frame.

(** [classify_aqi], lines 15-25. *)
Definition classify_aqi (pm2_5 : float64) : string :=
  if (pm2_5 <=? F64.of_Z 50)%f64 then "Good"
  else if (pm2_5 <=? F64.of_Z 100)%f64 then "Moderate"
  else if (pm2_5 <=? F64.of_Z 200)%f64 then "Unhealthy"
  else if (pm2_5 <=? F64.of_Z 300)%f64 then "Very Unhealthy"
  else "Hazardous".

(** The numeric part of the row [df.apply(..., axis=1)] hands over: a
    pandas Series, from label to value. *)
Definition Series : Type := list (string * float64).

(** [row.get(label, default)] *)
Fixpoint get (row : Series) (label : string) (default : float64) : float64 :=
  match row with
  | [] => default
  | (l, v) :: rest => if String.eqb l label then v else get rest label default
  end.

(** [compute_severity], lines 28-36. *)
Definition compute_severity (row : Series) : float64 :=
  (get row "pm2_5" (F64.of_Z 0) * F64.of_Z 5 +
   get row "pm10" (F64.of_Z 0) * F64.of_Z 3 +
   get row "nitrogen_dioxide" (F64.of_Z 0) * F64.of_Z 4 +
   get row "sulphur_dioxide" (F64.of_Z 0) * F64.of_Z 4 +
   get row "carbon_monoxide" (F64.of_Z 0) * F64.of_Z 2 +
   get row "ozone" (F64.of_Z 0) * F64.of_Z 3)%f64.

(** [risk_classification], lines 39-45. *)
Definition risk_classification (severity : float64) : string :=
  if (severity >? F64.of_Z 400)%f64 then "High Risk"
  else if (severity >? F64.of_Z 200)%f64 then "Moderate Risk"
  else "Low Risk".

Definition cols : list string :=
  ["pm10"; "pm2_5"; "carbon_monoxide"; "nitrogen_dioxide";
   "sulphur_dioxide"; "ozone"; "uv_index"].

(** [hourly.get(c, [])] *)
Definition hourly_get (hourly : gmap string series) (c : string) : series :=
  default (SList []) (hourly !! c).

Definition len (s : series) : outcome nat :=
  match s with
  | SList cells => Ok (length cells)
  | SUnsized ty => Raise (no_len ty)
  end.

(** [len(hourly.get(c, [])) for c in names], left to right. *)
Fixpoint lens (hourly : gmap string series) (names : list string) : outcome (list nat) :=
  match names with
  | [] => Ok []
  | c :: rest =>
      match len (hourly_get hourly c) with
      | Raise e => Raise e
      | Ok n => match lens hourly rest with
                | Raise e => Raise e
                | Ok ns => Ok (n :: ns)
                end
      end
  end.

(** Line 72. *)
Definition max_len (hourly : gmap string series) : outcome nat :=
  match lens hourly (cols ++ ["time"]) with
  | Raise e => Raise e
  | Ok ns => Ok (foldr Nat.max O ns)
  end.

(** One turn of the padding loop, lines 77-80.  The array found in [hourly]
    is extended in place, so [hourly] changes with it; an array made up for
    a missing name is stored in [data] only. *)
Definition pad_one (n : nat)
    (st : gmap string series * gmap string (list cell)) (c : string)
  : outcome (gmap string series * gmap string (list cell)) :=
  let '(hourly, data) := st in
  match hourly !! c with
  | None =>
      let arr := @nil cell in
      let arr := if (length arr <? n)%nat
                 then arr ++ replicate (n - length arr) CNull else arr in
      Ok (hourly, <[c := arr]> data)
  | Some (SList arr) =>
      if (length arr <? n)%nat then
        let arr := arr ++ replicate (n - length arr) CNull in
        Ok (<[c := SList arr]> hourly, <[c := arr]> data)
      else Ok (hourly, <[c := arr]> data)
  | Some (SUnsized ty) => Raise (no_len ty)
  end.

Fixpoint pad_loop (n : nat)
    (st : gmap string series * gmap string (list cell)) (names : list string)
  : outcome (gmap string series * gmap string (list cell)) :=
  match names with
  | [] => Ok st
  | c :: rest =>
      match pad_one n st c with
      | Raise e => Raise e
      | Ok st' => pad_loop n st' rest
      end
  end.

(** Lines 71-80: the padded arrays, and [hourly] as the loop leaves it. *)
Definition pad (hourly : gmap string series)
  : outcome (gmap string series * gmap string (list cell)) :=
  match max_len hourly with
  | Raise e => Raise e
  | Ok n => pad_loop n (hourly, ∅) ("time" :: cols)
  end.

Definition column (data : gmap string (list cell)) (c : string) : list cell :=
  default [] (data !! c).

(** [df["time"].dt.hour] of a timestamp. *)
Definition dt_hour (t : Z) : Z := ((t / 3600) mod 24)%Z.

Section Pandas.

(** [pd.to_numeric(..., errors="coerce")] on a string cell. *)
Variable numeric_of_str : string -> float64.
(** [pd.to_datetime(..., errors="coerce")] on a cell that is not null, given
    the column it stands in. *)
Variable datetime_of : list cell -> cell -> option Z.

Definition to_numeric (c : cell) : float64 :=
  match c with
  | CNull => F64.nan
  | CNum x => x
  | CStr s => numeric_of_str s
  end.

Definition to_datetime (col : list cell) : list (option Z) :=
  map (fun c => match c with CNull => None | _ => datetime_of col c end) col.

(** Lines 83-94 for the row at index [i]. *)
Definition row_at (data : gmap string (list cell)) (city_name : string) (i : nat) : row :=
  let num c := to_numeric (nth i (column data c) CNull) in
  let t := nth i (to_datetime (column data "time")) None in
  let s : Series :=
    [("pm10", num "pm10"); ("pm2_5", num "pm2_5");
     ("carbon_monoxide", num "carbon_monoxide");
     ("nitrogen_dioxide", num "nitrogen_dioxide");
     ("sulphur_dioxide", num "sulphur_dioxide");
     ("ozone", num "ozone"); ("uv_index", num "uv_index")] in
  let severity := compute_severity s in
  {| time := t;
     pm10 := num "pm10"; pm2_5 := num "pm2_5";
     carbon_monoxide := num "carbon_monoxide";
     nitrogen_dioxide := num "nitrogen_dioxide";
     sulphur_dioxide := num "sulphur_dioxide";
     ozone := num "ozone"; uv_index := num "uv_index";
     city := city_name;
     hour := dt_hour <$> t;
     AQI_category := classify_aqi (num "pm2_5");
     severity_score := severity;
     risk := risk_classification severity |}.

(** [pd.DataFrame(data)] and the derived columns, lines 83-94. *)
Definition build (data : gmap string (list cell)) (city_name : string)
  : outcome (list row) :=
  let n := length (column data "time") in
  if forallb (fun c => (length (column data c) =? n)%nat) cols
  then Ok (map (row_at data city_name) (seq 0 n))
  else Raise (Exn ValueError "All arrays must be of the same length").

Definition values (r : row) : list float64 :=
  [pm10 r; pm2_5 r; carbon_monoxide r; nitrogen_dioxide r;
   sulphur_dioxide r; ozone r; uv_index r].

(** [df.dropna(subset=cols, how="all")], line 97. *)
Definition dropna_all (df : list row) : list row :=
  List.filter (fun r => negb (forallb F64.isnan (values r))) df.

(** Lines 59-99, once the payload is a single value. *)
Definition flatten (json_path : string) (p : payload) : outcome (list row) :=
  match p with
  | PList _ => Raise (no_attribute "list" "get")
  | POther ty => Raise (no_attribute ty "get")
  | PDict c hourly =>
      let city_name :=
        match c with
        | Some s => if String.eqb s EmptyString then
                      Str.capitalize (Str.before "_" (Str.stem json_path))
                    else s
        | None => Str.capitalize (Str.before "_" (Str.stem json_path))
        end in
      match hourly with
      | HMissing | HFalsy => Ok []
      | HOther ty => Raise (no_attribute ty "get")
      | HDict m =>
          if bool_decide (m = ∅) then Ok []
          else match pad m with
               | Raise e => Raise e
               | Ok (_, data) =>
                   match build data city_name with
                   | Raise e => Raise e
                   | Ok df => Ok (dropna_all df)
                   end
               end
      end
  end.

(** [flatten_city_json], lines 46-99. *)
Definition flatten_city_json (json_path : string) : IO (list row) :=
  (p <- read_json json_path ;;
   match p with
   | PList [] => ret []
   | PList (first :: _) => lift (flatten json_path first)
   | _ => lift (flatten json_path p)
   end)%io.

Fixpoint flatten_each (raw_json_paths : list string) : IO (list (list row)) :=
  match raw_json_paths with
  | [] => ret []
  | path :: rest =>
      (df <- flatten_city_json path ;;
       dfs <- flatten_each rest ;;
       ret (df :: dfs))%io
  end.

(** [transform_all], lines 101-117. *)
Definition transform_all (STAGED_DIR : string) (raw_json_paths : list string) : IO string :=
  (dfs <- flatten_each raw_json_paths ;;
   match dfs with
   | [] => raise (Exn ValueError "No raw JSON files found for transformation")
   | _ =>
       let final_df := concat dfs in
       fun w =>
         let staged_path :=
           STAGED_DIR +:+ "air_quality_transformed_" +:+ local_stamp w +:+ ".csv" in
         (write_file staged_path (CsvFile final_df) ;; ret staged_path) w
   end)%io.

End Pandas.

End Transform.

(** ** etl_analysis.py: [compute_kpis]

    The frame is the table read back from storage.  Of the four KPIs the
    two studied here are modelled: [risk_percentage] and
    [worst_hour_by_avg_pm2_5]. *)

Module Analysis.

Record record : Type := Record_ {
  city : string;
  time : option Z;                 (* [None] is NaT *)
  pm2_5 : float64;
  severity_score : float64;
  risk_flag : option string        (* [None] is a missing flag *)
}.

(** [s.fillna(v)] on one cell. *)
Definition fillna (v : string) (x : option string) : string := default v x.

Definition count (k : string) (l : list string) : nat :=
  length (List.filter (String.eqb k) l).

(** [s.value_counts()], as the pairs of a value and its number of
    occurrences.  pandas lists them by decreasing count; the dictionary
    built from them does not depend on that order. *)
Definition value_counts (l : list string) : list (string * nat) :=
  map (fun k => (k, count k l)) (remove_dups l).

(** [n / d] for [0 < d], to the nearest integer, ties to the even one. *)
Definition round_half_even (n d : Z) : Z :=
  let q := (n / d)%Z in
  let r := (n mod d)%Z in
  if (2 * r <? d)%Z then q
  else if (d <? 2 * r)%Z then (q + 1)%Z
  else if Z.even q then q else (q + 1)%Z.

(** [round((v / total) * 100, 2)].  The quotient is taken and rounded in
    exact arithmetic, and the result is the exact number of hundredths:
    the representation error of binary64 is not modelled here. *)
Definition risk_pct (v total : nat) : Q :=
  round_half_even (Z.of_nat v * 100 * 100) (Z.of_nat total) # 100.

(** Lines 139-143. *)
Definition risk_percentage (df : list record) : list (string * Q) :=
  let total := length df in
  let risk_counts := value_counts (map (fun r => fillna "Unknown" (risk_flag r)) df) in
  map (fun kv => (fst kv, risk_pct (snd kv) total)) risk_counts.

(** [s.mean()] of a group without missing values: the running sum, left to
    right, over the count. *)
Definition mean (xs : list float64) : float64 :=
  (fold_left F64.add xs (F64.of_Z 0) / F64.of_nat (length xs))%f64.

Definition hour_of_day (r : record) : option Z := Transform.dt_hour <$> time r.

(** [df.dropna(subset=["time", "pm2_5"])] *)
Definition dropna_time_pm2_5 (df : list record) : list record :=
  List.filter (fun r => bool_decide (is_Some (time r)) && negb (F64.isnan (pm2_5 r))) df.

Definition at_hour (h : Z) (temp : list record) : list record :=
  List.filter (fun r => bool_decide (hour_of_day r = Some h)) temp.

(** [temp.groupby("hour_of_day", as_index=False)["pm2_5"].mean()]: one row
    per hour that occurs, by increasing hour. *)
Definition hour_avg (temp : list record) : list (Z * float64) :=
  omap (fun h : nat =>
          let h := Z.of_nat h in
          match at_hour h temp with
          | [] => None
          | g => Some (h, mean (map pm2_5 g))
          end) (seq 0 24).

Fixpoint insert_desc (x : Z * float64) (l : list (Z * float64)) : list (Z * float64) :=
  match l with
  | [] => [x]
  | y :: ys => if F64.ltb (snd x) (snd y) then y :: insert_desc x ys else x :: l
  end.

(** [sort_values("pm2_5", ascending=False)]: decreasing, missing values
    last.  Rows with equal values keep their order here; the quicksort
    pandas calls by default does not promise that. *)
Definition sort_values_desc (l : list (Z * float64)) : list (Z * float64) :=
  foldr insert_desc [] (List.filter (fun x => negb (F64.isnan (snd x))) l)
  ++ List.filter (fun x => F64.isnan (snd x)) l.

(** Lines 146-152. *)
Definition worst_hour_by_avg_pm2_5 (df : list record) : option (Z * float64) :=
  let temp := dropna_time_pm2_5 df in
  match temp with
  | [] => None
  | _ => head (sort_values_desc (hour_avg temp))
  end.

Record kpis : Type := Kpis {
  kpi_risk_percentage : option (list (string * Q));
  kpi_worst_hour : option (Z * float64)
}.

(** [compute_kpis], lines 117-154 (the two city KPIs left out). *)
Definition compute_kpis (df : list record) : kpis :=
  match df with
  | [] => Kpis None None
  | _ => Kpis (Some (risk_percentage df)) (worst_hour_by_avg_pm2_5 df)
  end.

End Analysis.

(** ** etl_analysis.py: the two city KPIs of [compute_kpis] *)

Module CityKpi.

Fixpoint insert_key (c : string) (l : list string) : list string :=
  match l with
  | [] => [c]
  | d :: rest => if String.leb c d then c :: l else d :: insert_key c rest
  end.

(** The keys of [df.groupby("city")]: the cities that occur, sorted. *)
Definition group_keys (l : list string) : list string :=
  foldr insert_key [] (remove_dups l).

(** [s.mean()] of a group: missing values are skipped, and a group without
    any value has a missing mean. *)
Definition skipna_mean (xs : list float64) : float64 :=
  match List.filter (fun x => negb (F64.isnan x)) xs with
  | [] => F64.nan
  | ys => Analysis.mean ys
  end.

Fixpoint insert_desc (x : string * float64) (l : list (string * float64))
  : list (string * float64) :=
  match l with
  | [] => [x]
  | y :: ys => if F64.ltb (snd x) (snd y) then y :: insert_desc x ys else x :: l
  end.

(** [sort_values(col, ascending=False)]: decreasing, missing values last;
    rows with equal values keep their order here. *)
Definition sort_values_desc (l : list (string * float64)) : list (string * float64) :=
  foldr insert_desc [] (List.filter (fun x => negb (F64.isnan (snd x))) l)
  ++ List.filter (fun x => F64.isnan (snd x)) l.

(** [.dropna()] *)
Definition dropna (l : list (string * float64)) : list (string * float64) :=
  List.filter (fun x => negb (F64.isnan (snd x))) l.

Section Column.

Variable col : Analysis.record -> float64.

Definition of_city (c : string) (df : list Analysis.record) : list Analysis.record :=
  List.filter (fun r => String.eqb (Analysis.city r) c) df.

(** [df.groupby("city", as_index=False)[col].mean()] *)
Definition by_city (df : list Analysis.record) : list (string * float64) :=
  map (fun c => (c, skipna_mean (map col (of_city c df))))
      (group_keys (map Analysis.city df)).

(** Lines 126-129 and 133-136: the first row of the sorted frame, if any. *)
Definition top_city (df : list Analysis.record) : option (string * float64) :=
  head (sort_values_desc (dropna (by_city df))).

End Column.


Definition city_highest_severity_score : list Analysis.record -> option (string * float64) :=
  top_city Analysis.severity_score.

End CityKpi.

(** ** load.py: cleaning and the batch insert *)

Module Load.

(** A cell of a record of [df.to_dict(orient="records")], as a Python value. *)
Inductive value : Type :=
| VNone
| VNA                                (* [pd.NA] *)
| VFloat (x : float64)
| VInt (n : Z)
| VStr (s : string).

(** [math.isinf] *)
Definition isinf (x : float64) : bool :=
  match x with S754_infinity _ => true | _ => false end.

Definition clean_value (v : value) : value :=
  match v with
  | VNone => VNone
  | VFloat x => if F64.isnan x || isinf x then VNone else v
  | _ => v
  end.

(** A record: a dict, as its items in key order. *)
Definition row : Type := list (string * value).

(** [{k: clean_value(v) for k, v in row.items()}] *)
Definition clean_row (r : row) : row :=
  map (fun kv => (fst kv, clean_value (snd kv))) r.

(** The table of the database.  An insert is one request: it adds all rows
    of the batch, or it raises and adds none; [insert_error] says which
    requests of the run raise. *)
Record db : Type := Db {
  table : list row;
  inserts : nat;                        (* insert requests sent so far *)
  insert_error : nat -> option string
}.

(** [supabase.table(TABLE_NAME).insert(batch).execute()] *)
Definition insert (batch : list row) (s : db) : option string * db :=
  match insert_error s (inserts s) with
  | Some msg => (Some msg, Db (table s) (S (inserts s)) (insert_error s))
  | None => (None, Db (table s ++ batch) (S (inserts s)) (insert_error s))
  end.

Definition BATCH_SIZE : nat := 200.

(** [range(0, n, step)], for [0 < step]. *)
Definition range_step (n step : nat) : list nat :=
  map (fun k => k * step) (seq 0 ((n + step - 1) / step)).

(** [l[i:j]], for [i <= j]. *)
Definition slice {A} (l : list A) (i j : nat) : list A := take (j - i) (drop i l).

Inductive result : Type :=
| Loaded
| IndexError.                        (* [cleaned_batch[0]] on an empty batch *)

(** The body of the loop of lines 74-89, over the starts still to do.  The
    handler of a failed insert prints the first row of the batch. *)
Fixpoint insert_batches (records : list row) (starts : list nat) (s : db) : result * db :=
  match starts with
  | [] => (Loaded, s)
  | i :: rest =>
      let batch := slice records i (i + BATCH_SIZE) in
      let cleaned_batch := map clean_row batch in
      match insert cleaned_batch s with
      | (None, s') => insert_batches records rest s'
      | (Some _, s') =>
          match cleaned_batch with
          | [] => (IndexError, s')
          | _ :: _ => insert_batches records rest s'
          end
      end
  end.

(** Lines 71-91 of [load_csv_to_supabase], on the records of step 6. *)
Definition load_records (records : list row) (s : db) : result * db :=
  insert_batches records (range_step (length records) BATCH_SIZE) s.

End Load.

(** ** run_pipeline.py: the extract and transform steps *)

Module Pipeline.

Inductive status : Type :=
| Exit (code : Z)                (* [sys.exit(code)] *)
| Staged (staged_csv : string).  (* the transform step is over *)

Section Config.

Variable RAW_DIR : string.
Variable MAX_RETRIES : Z.
Variable STAGED_DIR : string.
Variable numeric_of_str : string -> float64.
Variable datetime_of : list cell -> cell -> option Z.

(** [[f["raw_path"] for f in extracted_files if f.get("success") == "true"]] *)
Definition raw_files (extracted_files : list Extract.fetch_result) : list string :=
  omap (fun f => match f with
                 | Extract.Success _ raw_path => Some raw_path
                 | Extract.Failure _ _ => None
                 end) extracted_files.

(** [run_pipeline], lines 15-39. *)
Definition run_pipeline (w : world) : status * world :=
  match Extract.fetch_all_cities RAW_DIR MAX_RETRIES w with
  | (Raise _, w1) => (Exit 1, w1)
  | (Ok extracted_files, w1) =>
      let transform : IO string :=
        match raw_files extracted_files with
        | [] => raise (Exn ValueError "No successful extracted files to transform.")
        | paths => Transform.transform_all numeric_of_str datetime_of STAGED_DIR paths
        end in
      match transform w1 with
      | (Raise _, w2) => (Exit 1, w2)
      | (Ok staged_csv, w2) => (Staged staged_csv, w2)
      end
  end.

End Config.

End Pipeline.

(** ** A reader for the timestamps of the API

    [YYYY-MM-DDTHH:MM], the format the air-quality API sends; it is the
    instance of the pandas hooks used in the examples below. *)

Module Iso.

Definition digit (c : ascii) : option Z :=
  let n := nat_of_ascii c in
  if (48 <=? n)%nat && (n <=? 57)%nat then Some (Z.of_nat (n - 48)) else None.

Fixpoint number (acc : Z) (cs : list ascii) : option Z :=
  match cs with
  | [] => Some acc
  | c :: rest => match digit c with
                 | Some d => number (acc * 10 + d)%Z rest
                 | None => None
                 end
  end.

(** Days from 1970-01-01 to the given civil date. *)
Definition days_from_civil (y m d : Z) : Z :=
  let y := if (m <=? 2)%Z then (y - 1)%Z else y in
  let era := (y / 400)%Z in
  let yoe := (y - era * 400)%Z in
  let mp := if (2 <? m)%Z then (m - 3)%Z else (m + 9)%Z in
  let doy := ((153 * mp + 2) / 5 + d - 1)%Z in
  let doe := (yoe * 365 + yoe / 4 - yoe / 100 + doy)%Z in
  (era * 146097 + doe - 719468)%Z.

Definition parse (s : string) : option Z :=
  match list_ascii_of_string s with
  | [y1; y2; y3; y4; d1; m1; m2; d2; a1; a2; t; h1; h2; c; n1; n2] =>
      if Ascii.eqb d1 "-" && Ascii.eqb d2 "-" && Ascii.eqb t "T" && Ascii.eqb c ":" then
        match number 0 [y1; y2; y3; y4], number 0 [m1; m2], number 0 [a1; a2],
              number 0 [h1; h2], number 0 [n1; n2] with
        | Some y, Some m, Some d, Some h, Some n =>
            if (1 <=? m)%Z && (m <=? 12)%Z && (1 <=? d)%Z && (d <=? 31)%Z
               && (h <? 24)%Z && (n <? 60)%Z
            then Some (days_from_civil y m d * 86400 + h * 3600 + n * 60)%Z
            else None
        | _, _, _, _, _ => None
        end
      else None
  | _ => None
  end.

Definition datetime_of (col : list cell) (c : cell) : option Z :=
  match c with
  | CStr s => parse s
  | _ => None
  end.

(** No string cell of a numeric column is read as a number. *)
Definition numeric_of_str (s : string) : float64 := F64.nan.

Definition flatten_city_json : string -> IO (list Frame.row) :=
  Transform.flatten_city_json numeric_of_str datetime_of.

Definition transform_all : string -> list string -> IO string :=
  Transform.transform_all numeric_of_str datetime_of.

Definition run_pipeline (RAW_DIR : string) (MAX_RETRIES : Z) (STAGED_DIR : string)
  : world -> Pipeline.status * world :=
  Pipeline.run_pipeline RAW_DIR MAX_RETRIES STAGED_DIR numeric_of_str datetime_of.

End Iso.

(** ** Vocabulary of the statements *)

(** *** Fetching *)

(** The world after [k] more requests and the events [evs]. *)
Definition advance (w : world) (k : nat) (evs : list event) : world :=
  World (files w) (write_error w) (replies w) (sent w + k)
        (utc_stamp w) (local_stamp w) (trace w ++ evs).

Definition with_file (w : world) (path : string) (f : file) : world :=
  World (<[path := f]> (files w)) (write_error w) (replies w) (sent w)
        (utc_stamp w) (local_stamp w) (trace w).

(** [k] failed attempts in a row, the first of them being attempt [a + 1]:
    each is a request followed by a sleep of [2 ^ (attempt - 1)] seconds. *)
Definition backoffs (lat lon : float64) (a : Z) (k : nat) : list event :=
  flat_map (fun i : nat => [Get lat lon; Sleep (2 ^ (a + Z.of_nat i))]) (seq 0 k).

(** The text of the error a reply leads to before anything is saved. *)
Definition reply_error (r : reply) : option string :=
  match r with
  | Unreachable msg => Some msg
  | Reply resp =>
      match status_error resp with
      | Some msg => Some msg
      | None => match body resp with inl msg => Some msg | inr _ => None end
      end
  end.

(** The sleeps of a trace that come after its last request. *)
Definition sleeps_after_last_get (tr : list event) : list Z :=
  fold_left (fun acc e => match e with
                          | Get _ _ => []
                          | Sleep s => acc ++ [s]
                          | Pause => acc
                          end) tr [].

Definition requests_in (tr : list event) : nat :=
  length (List.filter (fun e => match e with Get _ _ => true | _ => false end) tr).

(** *** Transforming *)

(** The names the Transformer reads from the hourly section. *)
Definition names : list string := "time" :: Transform.cols.

Definition padded (n : nat) (arr : list cell) : list cell :=
  arr ++ replicate (n - length arr) CNull.

Definition pad_series (n : nat) (s : series) : series :=
  match s with
  | SList arr => SList (padded n arr)
  | SUnsized ty => SUnsized ty
  end.

Definition cells_of (hourly : gmap string series) (c : string) : list cell :=
  match hourly !! c with Some (SList arr) => arr | _ => [] end.

Definition sized (hourly : gmap string series) (c : string) : Prop :=
  forall ty, hourly !! c <> Some (SUnsized ty).

Definition all_arrays_have_length (n : nat) (hourly : gmap string series) : Prop :=
  forall c arr, hourly !! c = Some (SList arr) -> length arr = n.

Definition labels (r : Frame.row) : Transform.Series :=
  [("pm10", Frame.pm10 r); ("pm2_5", Frame.pm2_5 r);
   ("carbon_monoxide", Frame.carbon_monoxide r);
   ("nitrogen_dioxide", Frame.nitrogen_dioxide r);
   ("sulphur_dioxide", Frame.sulphur_dioxide r);
   ("ozone", Frame.ozone r); ("uv_index", Frame.uv_index r)].

(** The six pollutant cells of a row. *)
Definition pollutants (r : Frame.row) : list float64 :=
  [Frame.pm10 r; Frame.pm2_5 r; Frame.carbon_monoxide r;
   Frame.nitrogen_dioxide r; Frame.sulphur_dioxide r; Frame.ozone r].

(** The derived columns of a row are the feature functions of its cells. *)
Definition derived (r : Frame.row) : Prop :=
  Frame.AQI_category r = Transform.classify_aqi (Frame.pm2_5 r) /\
  Frame.severity_score r = Transform.compute_severity (labels r) /\
  Frame.risk r = Transform.risk_classification (Frame.severity_score r).

(** The severity score as the specification words it: a missing pollutant
    counts as 0. *)
Definition or_zero (x : float64) : float64 :=
  if F64.isnan x then F64.of_Z 0 else x.

Definition severity_absent_as_zero (r : Frame.row) : float64 :=
  (or_zero (Frame.pm2_5 r) * F64.of_Z 5 +
   or_zero (Frame.pm10 r) * F64.of_Z 3 +
   or_zero (Frame.nitrogen_dioxide r) * F64.of_Z 4 +
   or_zero (Frame.sulphur_dioxide r) * F64.of_Z 4 +
   or_zero (Frame.carbon_monoxide r) * F64.of_Z 2 +
   or_zero (Frame.ozone r) * F64.of_Z 3)%f64.

(** The value [flatten_city_json] goes on with: the first item of a list. *)
Definition first_payload (p : payload) : option payload :=
  match p with
  | PList [] => None
  | PList (first :: _) => Some first
  | _ => Some p
  end.



(** *** Aggregating *)

(** A key that orders the binary64 values other than NaN. *)
Definition rank (x : float64) : Z * Z * Z :=
  match x with
  | S754_nan => (0, 0, 0)
  | S754_zero _ => (0, 0, 0)
  | S754_infinity true => (-2, 0, 0)
  | S754_infinity false => (2, 0, 0)
  | S754_finite true m e => (-1, - e, Z.neg m)
  | S754_finite false m e => (1, e, Z.pos m)
  end%Z.

Definition lex_le (a b : Z * Z * Z) : Prop :=
  (a.1.1 < b.1.1 \/
   (a.1.1 = b.1.1 /\ (a.1.2 < b.1.2 \/ (a.1.2 = b.1.2 /\ a.2 <= b.2))))%Z.



(** The PM2.5 values averaged for hour [h]. *)
Definition group (df : list Analysis.record) (h : Z) : list float64 :=
  map Analysis.pm2_5 (Analysis.at_hour h (Analysis.dropna_time_pm2_5 df)).




(** *** Inputs of the examples *)

Definition timed_out : string := "Read timed out. (read timeout=10)".
Definition disk_full : string := "[Errno 28] No space left on device".

(** A world with the given disk and replies, in which every write works. *)
Definition quiet (fs : gmap string file) (rs : nat -> reply) : world :=
  World fs (fun _ => None) rs 0 "20240101T000000Z" "20240101_000000" [].

(** The network is down. *)
Definition offline : world := quiet ∅ (fun _ => Unreachable timed_out).

(** One raw file on the disk. *)
Definition on_disk (path : string) (p : payload) : world :=
  quiet (<[path := JsonFile p]> ∅) (fun _ => Unreachable timed_out).

Definition delhi_lat : float64 := F64.of_decimal 287041 4.
Definition delhi_lon : float64 := F64.of_decimal 771025 4.

(** Scenario A: two timestamps, [pm2_5 = [60, null]], nothing else. *)
Definition scenario_A : payload :=
  PDict None
    (HDict (<["time" := SList [CStr "2024-01-01T00:00"; CStr "2024-01-01T01:00"]]>
           (<["pm2_5" := SList [CNum (F64.of_Z 60); CNull]]> ∅))).

(** The API answers, the disk is full. *)
Definition full_disk : world :=
  World ∅ (fun _ => Some disk_full)
        (fun _ => Reply (Response None (inr scenario_A)))
        0 "20240101T000000Z" "20240101_000000" [].

Definition delhi_json : string := "data/raw/delhi_raw_20240101T000000Z.json".

(** A PM10 reading of 1000 and no PM2.5 reading. *)
Definition pm10_only : payload :=
  PDict None
    (HDict (<["time" := SList [CStr "2024-01-01T00:00"]]>
           (<["pm10" := SList [CNum (F64.of_Z 1000)]]>
           (<["pm2_5" := SList [CNull]]> ∅)))).

(** A UV index and no pollutant reading at the first hour, nothing at the
    second. *)
Definition uv_only_hourly : gmap string series :=
  <["time" := SList [CStr "2024-01-01T00:00"; CStr "2024-01-01T01:00"]]>
  (<["uv_index" := SList [CNum (F64.of_Z 3); CNull]]> ∅).

Definition uv_only : payload := PDict None (HDict uv_only_hourly).

(** Ragged arrays, one of them under a name the Transformer does not read. *)
Definition ragged_hourly : gmap string series :=
  <["time" := SList [CStr "2024-01-01T00:00"; CStr "2024-01-01T01:00"]]>
  (<["pm10" := SList [CNum (F64.of_Z 12)]]>
  (<["dust" := SList [CNum (F64.of_Z 1); CNum (F64.of_Z 2); CNum (F64.of_Z 3)]]> ∅)).

Definition ragged : payload := PDict None (HDict ragged_hourly).


Definition staged_csv : string :=
  "data/staged/air_quality_transformed_20240101_000000.csv".



(** *** Further vocabulary *)


Definition is_failure (r : Extract.fetch_result) : bool :=
  match r with
  | Extract.Success _ _ => false
  | Extract.Failure _ _ => true
  end.

(** Zero of either sign, a positive number or plus infinity. *)
Definition nonneg (x : float64) : bool :=
  match x with
  | S754_zero _ | S754_finite false _ _ | S754_infinity false => true
  | _ => false
  end.

Definition aqi_labels : list string :=
  ["Good"; "Moderate"; "Unhealthy"; "Very Unhealthy"; "Hazardous"].

(** The place of a label on its scale, from the best to the worst. *)
Definition aqi_level (label : string) : nat :=
  if String.eqb label "Good" then 0
  else if String.eqb label "Moderate" then 1
  else if String.eqb label "Unhealthy" then 2
  else if String.eqb label "Very Unhealthy" then 3
  else 4.

Definition risk_level (label : string) : nat :=
  if String.eqb label "Low Risk" then 0
  else if String.eqb label "Moderate Risk" then 1
  else 2.

(** Whether the character occurs in the string. *)
Definition has (c : ascii) (s : string) : bool :=
  existsb (Ascii.eqb c) (list_ascii_of_string s).

(** The text before the first space or underscore. *)
Fixpoint first_word (s : string) : string :=
  match s with
  | EmptyString => EmptyString
  | String c rest =>
      if Ascii.eqb c " " || Ascii.eqb c "_" then EmptyString
      else String c (first_word rest)
  end.

(** One capital letter followed by small letters only. *)
Definition one_word_capitalised (s : string) : bool :=
  match s with
  | EmptyString => false
  | String c rest => Str.is_upper c && forallb Str.is_lower (list_ascii_of_string rest)
  end.




(** The [k]-th batch of the records, as it is sent. *)
Definition sent_batch (records : list Load.row) (k : nat) : list Load.row :=
  map Load.clean_row (take Load.BATCH_SIZE (drop (k * Load.BATCH_SIZE) records)).

Definition n_batches (n : nat) : nat := (n + Load.BATCH_SIZE - 1) / Load.BATCH_SIZE.

(** The batches among the first [m] whose insert is accepted, given the
    number [n0] of inserts sent before. *)
Definition accepted (records : list Load.row) (err : nat -> option string) (n0 m : nat)
  : list (list Load.row) :=
  map (fun k => match err (n0 + k) with Some _ => [] | None => sent_batch records k end) (seq 0 m).

(** A cell the database can take as a number or a null: not NaN, not
    infinite. *)
Definition json_safe (v : Load.value) : bool :=
  match v with
  | Load.VFloat x => negb (F64.isnan x || Load.isinf x)
  | _ => true
  end.

(** *** Further inputs of the examples *)

(** The first request times out, the others are answered with Scenario A. *)
Definition flaky : world :=
  quiet ∅ (fun n => match n with
                    | O => Unreachable timed_out
                    | _ => Reply (Response None (inr scenario_A))
                    end).

(** One hour at which all six pollutants are reported. *)
Definition full_reading : payload :=
  PDict None
    (HDict (<["time" := SList [CStr "2024-01-01T07:00"]]>
           (<["pm10" := SList [CNum (F64.of_Z 40)]]>
           (<["pm2_5" := SList [CNum (F64.of_Z 60)]]>
           (<["carbon_monoxide" := SList [CNum (F64.of_Z 300)]]>
           (<["nitrogen_dioxide" := SList [CNum (F64.of_Z 20)]]>
           (<["sulphur_dioxide" := SList [CNum (F64.of_Z 0)]]>
           (<["ozone" := SList [CNum (F64.of_Z 50)]]> ∅)))))))).


(** Three records, the first with a NaN and an infinity. *)
Definition three_records : list Load.row :=
  [ [("city", Load.VStr "Delhi"); ("pm2_5", Load.VFloat F64.nan);
     ("pm10", Load.VFloat (S754_infinity false))];
    [("city", Load.VStr "Delhi"); ("pm2_5", Load.VFloat (F64.of_Z 60)); ("pm10", Load.VNone)];
    [("city", Load.VStr "Mumbai"); ("pm2_5", Load.VFloat (F64.of_Z 12)); ("pm10", Load.VInt 7)] ].

(** An empty table and a database that accepts every insert. *)
Definition empty_db : Load.db := Load.Db [] 0 (fun _ => None).

(** Every request is answered with Scenario A. *)
Definition online : world := quiet ∅ (fun _ => Reply (Response None (inr scenario_A))).

(** * Properties *)

(** ** The fetch stage *)

Lemma advance_0 w : advance w 0 [] = w.
Proof. destruct w. unfold advance. cbn. rewrite Nat.add_0_r, app_nil_r. reflexivity. Qed.

Lemma advance_advance w j k e1 e2 :
  advance (advance w j e1) k e2 = advance w (j + k) (e1 ++ e2).
Proof. unfold advance. cbn. rewrite Nat.add_assoc, app_assoc. reflexivity. Qed.

Lemma backoffs_S lat lon a k :
  backoffs lat lon a (S k) = [Get lat lon; Sleep (2 ^ a)] ++ backoffs lat lon (a + 1) k.
Proof.
  unfold backoffs. cbn [seq flat_map]. rewrite Z.add_0_r. f_equal.
  rewrite <- seq_shift, flat_map_concat_map, map_map, <- flat_map_concat_map.
  apply flat_map_ext. intros i.
  replace (a + Z.of_nat (S i))%Z with (a + 1 + Z.of_nat i)%Z by lia. reflexivity.
Qed.

Section FetchFacts.

Variable RAW_DIR : string.
Variable MAX_RETRIES : Z.
Variable city : string.
Variables lat lon : float64.

Abbreviation attempt_once := (Extract.attempt_once RAW_DIR city lat lon).
Abbreviation fetch_loop := (Extract.fetch_loop RAW_DIR city lat lon).
Abbreviation _fetch_city := (Extract._fetch_city RAW_DIR MAX_RETRIES city lat lon).

(** An attempt sends one request and sleeps by itself never; whatever it
    returns, the replies to come and the disk errors are as before. *)
Lemma attempt_once_effect w :
  exists fs, snd (attempt_once w) =
    World fs (write_error w) (replies w) (S (sent w)) (utc_stamp w) (local_stamp w)
          (trace w ++ [Get lat lon]).
Proof.
  cbv [Extract.attempt_once bind Extract.requests_get Extract.raise_for_status Extract.response_json
       Extract._save_raw Extract._now_ts try_except write_file ret raise].
  destruct (replies w (sent w)) as [msg|[se b]]; cbn; [eauto|].
  destruct se as [msg|]; cbn; [eauto|].
  destruct b as [msg|p]; cbn; [eauto|].
  repeat match goal with
         | |- context [write_error w ?path] => destruct (write_error w path); cbn
         end; eauto.
Qed.

Lemma attempt_once_fails w msg :
  reply_error (replies w (sent w)) = Some msg ->
  exists e, exn_str e = msg /\
    attempt_once w = (Raise e, advance w 1 [Get lat lon]).
Proof.
  cbv [reply_error Extract.attempt_once bind Extract.requests_get Extract.raise_for_status
       Extract.response_json raise advance].
  rewrite Nat.add_1_r.
  destruct (replies w (sent w)) as [m|[se b]]; cbn.
  - intros [= ->]. exists (Exn RequestException msg). split; reflexivity.
  - destruct se as [m|]; cbn.
    { intros [= ->]. exists (Exn RequestException msg). split; reflexivity. }
    destruct b as [m|p]; cbn; [|discriminate].
    intros [= ->]. exists (Exn JSONDecodeError msg). split; reflexivity.
Qed.

Lemma fetch_loop_shape remaining : forall attempt last w,
  exists (k : nat) res w',
    fetch_loop remaining attempt last w = (Ok res, w') /\
    ((exists err, res = Extract.Failure city err /\ (remaining = O -> err = last) /\ k = remaining /\
      trace w' = trace w ++ backoffs lat lon attempt k /\ sent w' = (sent w + k)%nat)
     \/
     (exists path, res = Extract.Success city path /\ (k < remaining)%nat /\
      trace w' = trace w ++ backoffs lat lon attempt k ++ [Get lat lon] /\
      sent w' = (sent w + k + 1)%nat)).
Proof.
  induction remaining as [|r IH]; intros attempt last w.
  - exists O, (Extract.Failure city last), w. split; [reflexivity|]. left. exists last.
    repeat split; cbn; [rewrite app_nil_r | rewrite Nat.add_0_r]; reflexivity.
  - cbn [Extract.fetch_loop].
    destruct (attempt_once_effect w) as [fs Hw].
    destruct (attempt_once w) as [[res|e] w1] eqn:E; cbn in Hw; subst w1.
    + exists O, res. eexists. split; [reflexivity|]. right.
      assert (exists path, res = Extract.Success city path) as [path ->].
      { revert E. unfold Extract.attempt_once, bind, ret.
        destruct (Extract.requests_get lat lon w) as [[resp|?] ?]; [|discriminate].
        destruct (Extract.raise_for_status resp _) as [[?|?] ?]; [|discriminate].
        destruct (Extract.response_json resp _) as [[?|?] ?]; [|discriminate].
        destruct (Extract._save_raw RAW_DIR _ city _) as [[path|?] ?]; [|discriminate].
        intros [= <- _]. eauto. }
      exists path. split; [reflexivity|]. split; [lia|]. cbn. split; [reflexivity | lia].
    + unfold bind, sleep, record_event. cbn.
      match goal with |- context [Extract.fetch_loop _ _ _ _ r ?a ?l ?w0] =>
        destruct (IH a l w0) as (k & res & w' & Hrun & Hcase) end.
      exists (S k), res, w'. split; [exact Hrun|].
      rewrite backoffs_S. replace (attempt + 1 - 1)%Z with attempt in Hcase by lia.
      cbn [trace sent] in Hcase.
      destruct Hcase as [(err & -> & _ & -> & Ht & Hs) | (path & -> & Hk & Ht & Hs)].
      * left. exists err. split; [reflexivity|]. split; [discriminate|]. split; [reflexivity|].
        split; [|lia]. rewrite Ht, <- !app_assoc. reflexivity.
      * right. exists path. split; [reflexivity|]. split; [lia|].
        split; [|lia]. rewrite Ht, <- !app_assoc. reflexivity.
Qed.

Lemma fetch_loop_all_fail remaining : forall attempt last w (msg : nat -> string),
  (forall i, (i < remaining)%nat -> reply_error (replies w (sent w + i)) = Some (msg i)) ->
  fetch_loop remaining attempt last w =
  (Ok (Extract.Failure city (match remaining with O => last | S r => Some (msg r) end)),
   advance w remaining (backoffs lat lon attempt remaining)).
Proof.
  induction remaining as [|r IH]; intros attempt last w msg H.
  - cbn. rewrite advance_0. reflexivity.
  - cbn [Extract.fetch_loop].
    destruct (attempt_once_fails w (msg O)) as (e & He & ->).
    { rewrite <- (H O) by lia. rewrite Nat.add_0_r. reflexivity. }
    unfold bind, sleep, record_event. cbn [fst snd].
    replace (attempt + 1 - 1)%Z with attempt by lia.
    match goal with |- Extract.fetch_loop _ _ _ _ _ _ _ ?w0 = _ =>
      replace w0 with (advance w 1 [Get lat lon; Sleep (2 ^ attempt)])
        by (unfold advance; cbn; rewrite <- app_assoc; reflexivity) end.
    rewrite (IH _ _ _ (fun i => msg (S i))).
    + rewrite advance_advance, backoffs_S. f_equal. f_equal.
      destruct r; [rewrite He|]; reflexivity.
    + intros i Hi. cbn [replies sent advance]. rewrite <- (H (S i)) by lia.
      f_equal. f_equal. lia.
Qed.

(** X1.  What a call of [_fetch_city] does, whatever the world: it returns and
    does not raise; it sends at most [MAX_RETRIES] requests; every failed
    attempt [k], the last one included, is followed by a sleep of
    [2 ^ (k - 1)] seconds; when all attempts fail the result carries the
    text of the last error. *)
Lemma fetch_city_backoff :
  (forall w, exists (k : nat) res w',
     _fetch_city w = (Ok res, w') /\
     (k <= Z.to_nat MAX_RETRIES)%nat /\
     ((exists err, res = Extract.Failure city err /\ k = Z.to_nat MAX_RETRIES /\
       trace w' = trace w ++ backoffs lat lon 0 k /\ sent w' = (sent w + k)%nat)
      \/
      (exists path, res = Extract.Success city path /\ (k < Z.to_nat MAX_RETRIES)%nat /\
       trace w' = trace w ++ backoffs lat lon 0 k ++ [Get lat lon] /\
       sent w' = (sent w + k + 1)%nat)))
  /\
  (forall w (msg : nat -> string),
     (0 < MAX_RETRIES)%Z ->
     (forall i, (i < Z.to_nat MAX_RETRIES)%nat ->
                reply_error (replies w (sent w + i)) = Some (msg i)) ->
     _fetch_city w =
     (Ok (Extract.Failure city (Some (msg (Z.to_nat MAX_RETRIES - 1)%nat))),
      advance w (Z.to_nat MAX_RETRIES) (backoffs lat lon 0 (Z.to_nat MAX_RETRIES)))).
Proof.
  split.
  - intros w. unfold Extract._fetch_city.
    destruct (fetch_loop_shape (Z.to_nat MAX_RETRIES) 0%Z None w) as (k & res & w' & Hrun & Hcase).
    exists k, res, w'. split; [exact Hrun|].
    destruct Hcase as [(err & -> & _ & -> & Ht & Hs) | (path & -> & Hk & Ht & Hs)].
    + split; [lia|]. left. eauto.
    + split; [lia|]. right. eauto.
  - intros w msg Hpos H. unfold Extract._fetch_city.
    rewrite (fetch_loop_all_fail _ _ _ _ msg H).
    destruct (Z.to_nat MAX_RETRIES) as [|n] eqn:E; [lia|].
    replace (S n - 1)%nat with n by lia. reflexivity.
Qed.

(** C6, as amended.  When the request and the parsing of the body succeed,
    the fetch returns a success only if the payload could be written: as
    JSON, or as text when the JSON file cannot be written.  The result holds
    the path of the file, not the payload.  When neither file can be
    written the attempt fails with the error of the second write and the
    loop goes on with the back-off as after any failed attempt. *)
Theorem fetch_success_needs_saved_payload (w : world) (p : payload) :
  (0 < MAX_RETRIES)%Z ->
  replies w (sent w) = Reply (Response None (inr p)) ->
  let json := RAW_DIR +:+ Extract.raw_name city (utc_stamp w) ".json" in
  let txt := RAW_DIR +:+ Extract.raw_name city (utc_stamp w) ".txt" in
  match write_error w json, write_error w txt with
  | None, _ =>
      _fetch_city w =
      (Ok (Extract.Success city json), with_file (advance w 1 [Get lat lon]) json (JsonFile p))
  | Some _, None =>
      _fetch_city w =
      (Ok (Extract.Success city txt), with_file (advance w 1 [Get lat lon]) txt (TextFile p))
  | Some _, Some msg =>
      attempt_once w = (Raise (Exn OSError msg), advance w 1 [Get lat lon]) /\
      _fetch_city w =
      fetch_loop (Z.to_nat MAX_RETRIES - 1) 1%Z (Some msg)
                 (advance w 1 [Get lat lon; Sleep 1])
  end.
Proof.
  intros Hpos Hreply json txt.
  assert (Hrun : _fetch_city w =
            match attempt_once w with
            | (Ok res, w') => (Ok res, w')
            | (Raise e, w') =>
                fetch_loop (Z.to_nat MAX_RETRIES - 1) 1%Z (Some (exn_str e))
                  (advance w' 0 [Sleep 1])
            end).
  { unfold Extract._fetch_city. destruct (Z.to_nat MAX_RETRIES) as [|n] eqn:E; [lia|].
    cbn [Extract.fetch_loop]. replace (S n - 1)%nat with n by lia.
    destruct (attempt_once w) as [[res|e] w']; [reflexivity|].
    unfold bind, sleep, record_event, advance. cbn. rewrite Nat.add_0_r. reflexivity. }
  rewrite Hrun. clear Hrun.
  assert (Hatt : attempt_once w =
            match write_error w json, write_error w txt with
            | None, _ => (Ok (Extract.Success city json),
                          with_file (advance w 1 [Get lat lon]) json (JsonFile p))
            | Some _, None => (Ok (Extract.Success city txt),
                               with_file (advance w 1 [Get lat lon]) txt (TextFile p))
            | Some _, Some msg => (Raise (Exn OSError msg), advance w 1 [Get lat lon])
            end).
  { cbv [Extract.attempt_once bind Extract.requests_get Extract.raise_for_status Extract.response_json
         Extract._save_raw Extract._now_ts try_except write_file ret raise advance with_file].
    rewrite Hreply. cbn. fold json txt. rewrite Nat.add_1_r.
    destruct (write_error w json); cbn; [|reflexivity].
    destruct (write_error w txt); reflexivity. }
  rewrite Hatt.
  destruct (write_error w json); [destruct (write_error w txt)|]; try reflexivity.
  split; [reflexivity|]. rewrite advance_advance. reflexivity.
Qed.

End FetchFacts.

(** C4.  With [MAX_RETRIES = 3] and every request timing out, the fetch
    returns a failure with the last error and does not raise, after three
    requests and the sleeps of 1 and 2 seconds between them; it then
    sleeps 4 more seconds after the third and final attempt, where the
    claim has no sleep. *)
Theorem fetch_city_sleeps_after_final_attempt :
  let run := Extract._fetch_city "data/raw/" 3 "Delhi" delhi_lat delhi_lon offline in
  fst run = Ok (Extract.Failure "Delhi" (Some timed_out)) /\
  trace (snd run) =
    [Get delhi_lat delhi_lon; Sleep 1;
     Get delhi_lat delhi_lon; Sleep 2;
     Get delhi_lat delhi_lon; Sleep 4] /\
  requests_in (trace (snd run)) = 3%nat /\
  sleeps_after_last_get (trace (snd run)) = [4%Z].
Proof. vm_compute. repeat split. Qed.

(** C6, the claim as stated fails.  The API answers every request with a
    body that parses, and no file can be written: each attempt counts as
    failed and is retried, and the result is a failure. *)
Lemma unsaved_payload_makes_fetch_fail :
  let run := Extract._fetch_city "data/raw/" 3 "Delhi" delhi_lat delhi_lon full_disk in
  (forall n, reply_error (replies full_disk n) = None) /\
  fst run = Ok (Extract.Failure "Delhi" (Some disk_full)) /\
  sent (snd run) = 3%nat /\
  files (snd run) = ∅ /\
  trace (snd run) =
    [Get delhi_lat delhi_lon; Sleep 1;
     Get delhi_lat delhi_lon; Sleep 2;
     Get delhi_lat delhi_lon; Sleep 4].
Proof. split; [reflexivity|]. vm_compute. repeat split. Qed.

Lemma fetch_success_needs_saved_payload_witness :
  let w := quiet ∅ (fun _ => Reply (Response None (inr scenario_A))) in
  Extract._fetch_city "data/raw/" 3 "Delhi" delhi_lat delhi_lon w =
  (Ok (Extract.Success "Delhi" delhi_json),
   with_file (advance w 1 [Get delhi_lat delhi_lon]) delhi_json (JsonFile scenario_A)).
Proof.
  exact (fetch_success_needs_saved_payload "data/raw/" 3 "Delhi" delhi_lat delhi_lon
           (quiet ∅ (fun _ => Reply (Response None (inr scenario_A)))) scenario_A
           eq_refl eq_refl).
Defined.

(** ** The transform stage *)

Import Frame.

Lemma padded_length n arr : (length arr <= n)%nat -> length (padded n arr) = n.
Proof. intros H. unfold padded. rewrite length_app, length_replicate. lia. Qed.

Lemma padded_ge n arr : (n <= length arr)%nat -> padded n arr = arr.
Proof. intros H. unfold padded. replace (n - length arr)%nat with O by lia. apply app_nil_r. Qed.

Lemma padded_idem n arr : padded n (padded n arr) = padded n arr.
Proof.
  apply padded_ge. unfold padded. rewrite length_app, length_replicate. lia.
Qed.

Lemma pad_one_spec n hourly data c st :
  Transform.pad_one n (hourly, data) c = Ok st ->
  sized hourly c /\
  st = (alter (pad_series n) c hourly, <[c := padded n (cells_of hourly c)]> data).
Proof.
  unfold Transform.pad_one, sized, cells_of.
  destruct (hourly !! c) as [[arr|ty]|] eqn:E.
  - destruct (length arr <? n)%nat eqn:L; intros [= <-]; (split; [congruence|]); f_equal.
    + apply map_eq. intros k. destruct (decide (c = k)) as [->|Hne].
      * rewrite lookup_insert_eq, lookup_alter_eq, E. reflexivity.
      * rewrite lookup_insert_ne, lookup_alter_ne by done. reflexivity.
    + apply map_eq. intros k. destruct (decide (c = k)) as [->|Hne].
      * rewrite lookup_alter_eq, E. cbn. rewrite padded_ge; [done|].
        apply Nat.ltb_ge in L. lia.
      * rewrite lookup_alter_ne by done. reflexivity.
    + rewrite padded_ge; [done|]. apply Nat.ltb_ge in L. lia.
  - discriminate.
  - intros [= <-]. split; [congruence|]. f_equal.
    + apply map_eq. intros k. destruct (decide (c = k)) as [->|Hne].
      * rewrite lookup_alter_eq, E. reflexivity.
      * rewrite lookup_alter_ne by done. reflexivity.
    + cbn. unfold padded. cbn. rewrite Nat.sub_0_r. destruct n; reflexivity.
Qed.

Lemma pad_loop_spec n names : forall hourly data hourly' data',
  Transform.pad_loop n (hourly, data) names = Ok (hourly', data') ->
  (forall c, c ∈ names -> sized hourly c) /\
  (forall c, hourly' !! c =
     if bool_decide (c ∈ names) then pad_series n <$> hourly !! c else hourly !! c) /\
  (forall c, data' !! c =
     if bool_decide (c ∈ names) then Some (padded n (cells_of hourly c)) else data !! c).
Proof.
  induction names as [|c rest IH]; intros hourly data hourly' data'; cbn [Transform.pad_loop].
  - intros [= <- <-]. split; [intros c Hc; inversion Hc|]. split; intros c; reflexivity.
  - destruct (Transform.pad_one n (hourly, data) c) as [st|e] eqn:E; [|discriminate].
    apply pad_one_spec in E as [Hs ->]. intros H. apply IH in H as (Hsz & Hh & Hd).
    split; [|split].
    + intros k Hk. apply elem_of_cons in Hk as [->|Hk]; [exact Hs|].
      specialize (Hsz k Hk). unfold sized in *. intros ty Hty.
      destruct (decide (c = k)) as [->|Hne].
      * exact (Hs ty Hty).
      * apply (Hsz ty). rewrite lookup_alter_ne by done. exact Hty.
    + intros k. rewrite Hh. destruct (decide (c = k)) as [->|Hne].
      * rewrite lookup_alter_eq. rewrite (bool_decide_eq_true_2 (k ∈ k :: rest)) by apply list_elem_of_here.
        case_bool_decide; [|reflexivity].
        destruct (hourly !! k) as [[arr|ty]|]; cbn; try reflexivity.
        rewrite padded_idem. reflexivity.
      * rewrite lookup_alter_ne by done.
        destruct (bool_decide (k ∈ rest)) eqn:B.
        -- apply bool_decide_eq_true_1 in B.
           rewrite bool_decide_eq_true_2 by (apply list_elem_of_further; exact B). reflexivity.
        -- apply bool_decide_eq_false_1 in B.
           rewrite bool_decide_eq_false_2; [reflexivity|].
           intros [->|Hk]%elem_of_cons; [by apply Hne | by apply B].
    + intros k. rewrite Hd. destruct (decide (c = k)) as [->|Hne].
      * rewrite (bool_decide_eq_true_2 (k ∈ k :: rest)) by apply list_elem_of_here.
        case_bool_decide.
        -- f_equal. unfold cells_of. rewrite lookup_alter_eq.
           destruct (hourly !! k) as [[arr|ty]|]; cbn; first [apply padded_idem | reflexivity].
        -- rewrite lookup_insert_eq. reflexivity.
      * rewrite lookup_insert_ne by done.
        assert (Hc : cells_of (alter (pad_series n) c hourly) k = cells_of hourly k).
        { unfold cells_of. rewrite lookup_alter_ne by done. reflexivity. }
        rewrite Hc.
        destruct (bool_decide (k ∈ rest)) eqn:B.
        -- apply bool_decide_eq_true_1 in B.
           rewrite bool_decide_eq_true_2 by (apply list_elem_of_further; exact B). reflexivity.
        -- apply bool_decide_eq_false_1 in B.
           rewrite bool_decide_eq_false_2; [reflexivity|].
           intros [->|Hk]%elem_of_cons; [by apply Hne | by apply B].
Qed.


Lemma lens_spec hourly names ns :
  Transform.lens hourly names = Ok ns ->
  ns = map (fun c => length (cells_of hourly c)) names /\
  (forall c, c ∈ names -> sized hourly c).
Proof.
  revert ns. induction names as [|c rest IH]; intros ns; cbn.
  - intros [= <-]. split; [reflexivity|]. intros c Hc. inversion Hc.
  - unfold Transform.hourly_get, cells_of, sized in *.
    destruct (hourly !! c) as [[arr|ty]|] eqn:E; cbn; try discriminate.
    + destruct (Transform.lens hourly rest) as [ms|e]; [|discriminate].
      intros [= <-]. destruct (IH ms eq_refl) as [-> Hs]. split; [reflexivity|].
      intros k Hk. apply elem_of_cons in Hk as [->|Hk]; [congruence | apply Hs, Hk].
    + destruct (Transform.lens hourly rest) as [ms|e]; [|discriminate].
      intros [= <-]. destruct (IH ms eq_refl) as [-> Hs]. split; [reflexivity|].
      intros k Hk. apply elem_of_cons in Hk as [->|Hk]; [congruence | apply Hs, Hk].
Qed.


Lemma foldr_max_ge (ns : list nat) k : k ∈ ns -> (k <= foldr Nat.max O ns)%nat.
Proof.
  induction ns as [|m ns IH]; intros Hk; [inversion Hk|].
  cbn. apply elem_of_cons in Hk as [->|Hk]; [lia|]. specialize (IH Hk). lia.
Qed.

Lemma max_len_spec hourly n :
  Transform.max_len hourly = Ok n ->
  forall c, c ∈ names -> sized hourly c /\ (length (cells_of hourly c) <= n)%nat.
Proof.
  unfold Transform.max_len.
  destruct (Transform.lens hourly (Transform.cols ++ ["time"])) as [ns|e] eqn:E; [|discriminate].
  intros [= <-]. apply lens_spec in E as [-> Hs]. intros c Hc.
  assert (Hc' : c ∈ Transform.cols ++ ["time"]).
  { apply elem_of_app. apply elem_of_cons in Hc as [->|Hc]; [right; apply list_elem_of_here | left; exact Hc]. }
  split; [apply Hs, Hc'|].
  apply foldr_max_ge. apply list_elem_of_In, in_map_iff. exists c. split; [reflexivity|].
  apply list_elem_of_In, Hc'.
Qed.


Lemma pad_spec hourly hourly' data :
  Transform.pad hourly = Ok (hourly', data) ->
  exists n, Transform.max_len hourly = Ok n /\
    (forall c, hourly' !! c =
       if bool_decide (c ∈ names) then pad_series n <$> hourly !! c else hourly !! c) /\
    (forall c, c ∈ names ->
       data !! c = Some (padded n (cells_of hourly c)) /\
       length (padded n (cells_of hourly c)) = n).
Proof.
  unfold Transform.pad. destruct (Transform.max_len hourly) as [n|e] eqn:E; [|discriminate].
  intros H. apply pad_loop_spec in H as (_ & Hh & Hd). exists n. split; [reflexivity|].
  split; [exact Hh|]. intros c Hc. split.
  - rewrite Hd. fold names. rewrite bool_decide_eq_true_2 by exact Hc. reflexivity.
  - apply padded_length. eapply max_len_spec; eassumption.
Qed.


Section FrameFacts.

Variable numeric_of_str : string -> float64.
Variable datetime_of : list cell -> cell -> option Z.

Abbreviation flatten := (Transform.flatten numeric_of_str datetime_of).
Abbreviation flatten_city_json := (Transform.flatten_city_json numeric_of_str datetime_of).
Abbreviation flatten_each := (Transform.flatten_each numeric_of_str datetime_of).
Abbreviation transform_all := (Transform.transform_all numeric_of_str datetime_of).





Lemma mul_nan_l y : (F64.nan * y)%f64 = F64.nan.
Proof. reflexivity. Qed.
Lemma add_nan_l y : (F64.nan + y)%f64 = F64.nan.
Proof. reflexivity. Qed.
Lemma add_nan_r x : (x + F64.nan)%f64 = F64.nan.
Proof. destruct x; reflexivity. Qed.
Lemma isnan_true x : F64.isnan x = true -> x = F64.nan.
Proof. destruct x; cbn; intros H; first [reflexivity | discriminate]. Qed.

Lemma compute_severity_nan r :
  existsb F64.isnan (pollutants r) = true ->
  Transform.compute_severity (labels r) = F64.nan.
Proof.
  unfold pollutants. cbn [existsb]. rewrite !orb_true_iff.
  unfold Transform.compute_severity, labels. cbn [Transform.get String.eqb Ascii.eqb Bool.eqb].
  intros [H|[H|[H|[H|[H|[H|H]]]]]]; try discriminate; apply isnan_true in H; rewrite H;
    rewrite ?mul_nan_l, ?add_nan_l, ?add_nan_r; reflexivity.
Qed.

Lemma risk_classification_nan : Transform.risk_classification F64.nan = "Low Risk".
Proof. reflexivity. Qed.

Lemma risk_classification_cases s :
  Transform.risk_classification s = "Low Risk" \/
  Transform.risk_classification s = "Moderate Risk" \/
  Transform.risk_classification s = "High Risk".
Proof.
  unfold Transform.risk_classification.
  destruct (s >? F64.of_Z 400)%f64; [auto|]. destruct (s >? F64.of_Z 200)%f64; auto.
Qed.

Lemma row_at_derived data city_name i :
  derived (Transform.row_at numeric_of_str datetime_of data city_name i).
Proof. split; [|split]; reflexivity. Qed.

Lemma flatten_derived json_path p df :
  flatten json_path p = Ok df -> Forall derived df.
Proof.
  destruct p as [items|c hourly|ty]; cbn [Transform.flatten]; try discriminate.
  destruct hourly as [| |m|ty]; try discriminate; try (intros [= <-]; constructor).
  destruct (bool_decide (m = ∅)); [intros [= <-]; constructor|].
  destruct (Transform.pad m) as [[hourly' data]|e]; [|discriminate].
  unfold Transform.build.
  destruct (forallb _ Transform.cols); [|discriminate].
  intros [= <-]. apply Forall_forall. intros r Hr.
  apply list_elem_of_In in Hr. unfold Transform.dropna_all in Hr.
  apply filter_In in Hr as [Hr _]. apply in_map_iff in Hr as (i & <- & _).
  apply row_at_derived.
Qed.

(** Reading and flattening a raw file leaves the world as it was. *)
Lemma flatten_city_json_world json_path w :
  snd (flatten_city_json json_path w) = w.
Proof.
  unfold Transform.flatten_city_json, bind, read_json, lift, ret.
  destruct (files w !! json_path) as [[p|p|rows]|]; try reflexivity.
  destruct p as [[|first items]|c hourly|ty]; reflexivity.
Qed.

Lemma flatten_city_json_derived json_path w df :
  fst (flatten_city_json json_path w) = Ok df -> Forall derived df.
Proof.
  unfold Transform.flatten_city_json, bind, read_json, lift, ret.
  destruct (files w !! json_path) as [[p|p|rows]|]; try discriminate.
  destruct p as [[|first items]|c hourly|ty]; cbn [fst].
  - intros [= <-]. constructor.
  - apply flatten_derived.
  - apply flatten_derived.
  - apply flatten_derived.
Qed.




(** C9.  Every row the Transformer returns carries one of the three risk
    flags, and a row in which one of the six pollutants is missing carries
    "Low Risk" whatever the values that are present: its severity score is
    NaN, which is greater than neither threshold. *)
Theorem risk_flag_defined_and_low_on_partial_rows json_path w df r :
  fst (flatten_city_json json_path w) = Ok df ->
  In r df ->
  (risk r = "Low Risk" \/ risk r = "Moderate Risk" \/ risk r = "High Risk") /\
  (existsb F64.isnan (pollutants r) = true -> risk r = "Low Risk").
Proof.
  intros Hdf Hr. apply flatten_city_json_derived in Hdf.
  rewrite Forall_forall in Hdf. destruct (Hdf r (proj2 (list_elem_of_In _ _) Hr)) as (_ & Hsev & Hrisk).
  rewrite Hrisk. split; [apply risk_classification_cases|].
  intros Hnan. rewrite Hsev, (compute_severity_nan r Hnan). apply risk_classification_nan.
Qed.

Lemma flatten_city_json_file json_path w p :
  files w !! json_path = Some (JsonFile p) ->
  flatten_city_json json_path w =
  (match first_payload p with
   | None => Ok []
   | Some q => flatten json_path q
   end, w).
Proof.
  intros Hf. unfold Transform.flatten_city_json, bind, read_json, lift, ret. rewrite Hf.
  destruct p as [[|first items]|c hourly|ty]; reflexivity.
Qed.




(** C10, as amended.  Reading and flattening a raw file leaves the disk as
    it was: the payload that is padded is the object parsed inside
    [flatten_city_json], which no caller holds.  In that object every array
    bound to one of the eight names the Transformer reads is extended in
    place with null cells up to the maximum length over these names (and
    left as it is when it already has that length); a missing name is padded
    in [data] only and stays missing; every other name keeps its value. *)
Theorem padding_extends_parsed_arrays_in_place :
  (forall json_path w, snd (flatten_city_json json_path w) = w)
  /\
  (forall hourly hourly' data,
     Transform.pad hourly = Ok (hourly', data) ->
     exists n,
       Transform.max_len hourly = Ok n /\
       (forall c arr,
          c ∈ names -> hourly !! c = Some (SList arr) ->
          let arr' := arr ++ replicate (n - length arr) CNull in
          hourly' !! c = Some (SList arr') /\ data !! c = Some arr' /\ length arr' = n) /\
       (forall c,
          c ∈ names -> hourly !! c = None ->
          hourly' !! c = None /\ data !! c = Some (replicate n CNull)) /\
       (forall c, c ∉ names -> hourly' !! c = hourly !! c)).
Proof.
  split; [apply flatten_city_json_world|].
  intros hourly hourly' data Hp. destruct (pad_spec _ _ _ Hp) as (n & Hn & Hh & Hd).
  exists n. split; [exact Hn|]. split; [|split].
  - intros c arr Hc Harr. cbn zeta. destruct (Hd c Hc) as [Hdc Hlen].
    unfold cells_of in Hdc, Hlen. rewrite Harr in Hdc, Hlen.
    rewrite Hh, bool_decide_eq_true_2, Harr by exact Hc. auto.
  - intros c Hc Hnone. destruct (Hd c Hc) as [Hdc _].
    unfold cells_of in Hdc. rewrite Hnone in Hdc.
    rewrite Hh, bool_decide_eq_true_2, Hnone by exact Hc. split; [reflexivity|].
    rewrite Hdc. unfold padded. cbn. rewrite Nat.sub_0_r. reflexivity.
  - intros c Hc. rewrite Hh, bool_decide_eq_false_2 by exact Hc. reflexivity.
Qed.

End FrameFacts.

(** C1.  Scenario A, first hour: PM2.5 is 60 and the five other pollutants
    are missing.  The score the Transformer stores is NaN: it is not the
    weighted sum with the missing pollutants counted as 0, which is 300, and
    it is not at least 0.  [row.get(label, 0)] finds every label in the row
    and returns the NaN cell, never the default. *)
Theorem severity_score_partial_row_is_nan :
  exists r,
    fst (Iso.flatten_city_json delhi_json (on_disk delhi_json scenario_A)) = Ok [r] /\
    pm2_5 r = F64.of_Z 60 /\
    forallb F64.isnan
      [pm10 r; carbon_monoxide r; nitrogen_dioxide r; sulphur_dioxide r; ozone r] = true /\
    Transform.get (labels r) "pm10" (F64.of_Z 0) = F64.nan /\
    severity_score r = F64.nan /\
    F64.leb (F64.of_Z 0) (severity_score r) = false /\
    severity_absent_as_zero r = F64.of_Z 300.
Proof. eexists. split; [vm_compute; reflexivity|]. vm_compute. repeat split. Qed.

(** C2.  A row whose PM2.5 is missing is classified "Hazardous", not "Good"
    as a PM2.5 of 0 would be: every comparison with NaN is false, which
    leaves the last branch. *)
Theorem aqi_category_of_missing_pm2_5_is_hazardous :
  Transform.classify_aqi F64.nan = "Hazardous" /\
  Transform.classify_aqi (F64.of_Z 0) = "Good" /\
  exists r,
    fst (Iso.flatten_city_json delhi_json (on_disk delhi_json pm10_only)) = Ok [r] /\
    F64.isnan (pm2_5 r) = true /\
    AQI_category r = "Hazardous".
Proof.
  split; [reflexivity|]. split; [reflexivity|].
  eexists. split; [vm_compute; reflexivity|]. vm_compute. repeat split.
Qed.

(** C3.  Two padded rows, in both of which the six pollutants are missing;
    the first has a UV index.  The Transformer keeps that row: the rows it
    drops are those in which the UV index is missing too. *)
Theorem row_without_pollutant_is_retained :
  Transform.max_len uv_only_hourly = Ok 2%nat /\
  exists r,
    fst (Iso.flatten_city_json delhi_json (on_disk delhi_json uv_only)) = Ok [r] /\
    forallb F64.isnan (pollutants r) = true /\
    uv_index r = F64.of_Z 3.
Proof.
  split; [reflexivity|].
  eexists. split; [vm_compute; reflexivity|]. vm_compute. repeat split.
Qed.

Lemma risk_flag_defined_and_low_on_partial_rows_witness :
  exists r,
    fst (Iso.flatten_city_json delhi_json (on_disk delhi_json pm10_only)) = Ok [r] /\
    pm10 r = F64.of_Z 1000 /\
    risk r = "Low Risk".
Proof.
  eexists. split; [vm_compute; reflexivity|]. split; [vm_compute; reflexivity|].
  refine (proj2 (risk_flag_defined_and_low_on_partial_rows
                   Iso.numeric_of_str Iso.datetime_of delhi_json
                   (on_disk delhi_json pm10_only) [_] _ _ _) _).
  - vm_compute. reflexivity.
  - left. reflexivity.
  - vm_compute. reflexivity.
Defined.



(** C10, the claim as stated fails.  After the transform of a raw file with
    ragged arrays the payload the caller can reach, the file, is as ragged
    as before: [pm10] has one cell where the maximum is two.  In the parsed
    object the loop pads [pm10], and leaves the three cells of [dust], a
    name it does not read. *)
Lemma ragged_payload_stays_ragged :
  let run := Iso.flatten_city_json delhi_json (on_disk delhi_json ragged) in
  (exists df, fst run = Ok df) /\
  files (snd run) !! delhi_json = Some (JsonFile (PDict None (HDict ragged_hourly))) /\
  Transform.max_len ragged_hourly = Ok 2%nat /\
  ~ all_arrays_have_length 2 ragged_hourly /\
  exists hourly' data,
    Transform.pad ragged_hourly = Ok (hourly', data) /\
    ~ all_arrays_have_length 2 hourly'.
Proof.
  split; [eexists; vm_compute; reflexivity|]. split; [reflexivity|].
  split; [reflexivity|]. split.
  - intros H. specialize (H "pm10" [CNum (F64.of_Z 12)] eq_refl). discriminate H.
  - eexists _, _. split; [reflexivity|].
    intros H.
    specialize (H "dust" [CNum (F64.of_Z 1); CNum (F64.of_Z 2); CNum (F64.of_Z 3)] eq_refl).
    discriminate H.
Qed.

Lemma padding_extends_parsed_arrays_in_place_witness :
  exists hourly' data,
    Transform.pad ragged_hourly = Ok (hourly', data) /\
    hourly' !! "pm10" = Some (SList [CNum (F64.of_Z 12); CNull]) /\
    hourly' !! "ozone" = None /\
    data !! "ozone" = Some [CNull; CNull] /\
    hourly' !! "dust" = ragged_hourly !! "dust".
Proof.
  eexists _, _. split; [reflexivity|].
  destruct (proj2 (padding_extends_parsed_arrays_in_place Iso.numeric_of_str Iso.datetime_of)
              ragged_hourly _ _ eq_refl) as (n & Hn & Hpresent & Hmissing & Hother).
  assert (n = 2%nat) as ->.
  { assert (H2 : Transform.max_len ragged_hourly = Ok 2%nat) by reflexivity. congruence. }
  split; [|split; [|split]].
  - apply (Hpresent "pm10" [CNum (F64.of_Z 12)]); [repeat constructor | reflexivity].
  - apply (Hmissing "ozone"); [repeat constructor | reflexivity].
  - apply (Hmissing "ozone"); [repeat constructor | reflexivity].
  - apply (Hother "dust"). apply (bool_decide_eq_false_1 ("dust" ∈ names)). reflexivity.
Defined.

(** ** The aggregation stage *)

Ltac order_case :=
  split; intro; first [reflexivity | discriminate | lia | exfalso; lia].

Lemma leb_rank x y :
  F64.isnan x = false -> F64.isnan y = false ->
  F64.leb x y = true <-> lex_le (rank x) (rank y).
Proof.
  intros Hx Hy. unfold F64.leb, SFleb, lex_le.
  destruct x as [sx|sx| |sx mx ex], y as [sy|sy| |sy my ey]; try discriminate;
    try destruct sx; try destruct sy; cbn; try order_case.
  - destruct (Z.compare_spec ex ey); cbn; try order_case.
    subst. change (PosDef.Pos.compare_cont Eq mx my) with (Pos.compare mx my).
    destruct (Pos.compare_spec mx my); cbn; order_case.
  - destruct (Z.compare_spec ex ey); cbn; try order_case.
    subst. change (PosDef.Pos.compare_cont Eq mx my) with (Pos.compare mx my).
    destruct (Pos.compare_spec mx my); cbn; order_case.
Qed.

Lemma leb_total x y :
  F64.isnan x = false -> F64.isnan y = false -> F64.ltb x y = false -> F64.leb y x = true.
Proof.
  intros Hx Hy. unfold F64.ltb, SFltb. intros H. apply leb_rank; try assumption.
  revert H. unfold lex_le.
  destruct x as [sx|sx| |sx mx ex], y as [sy|sy| |sy my ey]; try discriminate;
    try destruct sx; try destruct sy; cbn; try (intro; first [lia | discriminate]).
  - destruct (Z.compare_spec ex ey); cbn; try (intro; first [lia | discriminate]).
    subst. change (PosDef.Pos.compare_cont Eq mx my) with (Pos.compare mx my).
    destruct (Pos.compare_spec mx my); cbn; intro; first [lia | discriminate].
  - destruct (Z.compare_spec ex ey); cbn; try (intro; first [lia | discriminate]).
    subst. change (PosDef.Pos.compare_cont Eq mx my) with (Pos.compare mx my).
    destruct (Pos.compare_spec mx my); cbn; intro; first [lia | discriminate].
Qed.

Lemma leb_trans x y z : F64.leb x y = true -> F64.leb y z = true -> F64.leb x z = true.
Proof.
  intros H1 H2.
  assert (Hx : F64.isnan x = false) by (destruct x; try reflexivity; discriminate).
  assert (Hy : F64.isnan y = false) by (destruct y; try reflexivity; destruct x; discriminate).
  assert (Hz : F64.isnan z = false) by (destruct z; try reflexivity; destruct y; discriminate).
  apply leb_rank in H1; try assumption. apply leb_rank in H2; try assumption.
  apply leb_rank; try assumption. unfold lex_le in *. lia.
Qed.


Lemma ltb_leb x y : F64.ltb x y = true -> F64.leb x y = true.
Proof.
  unfold F64.ltb, F64.leb, SFltb, SFleb. destruct (SFcompare x y) as [[]|]; congruence.
Qed.

Lemma insert_desc_In x l y : In y (Analysis.insert_desc x l) <-> y = x \/ In y l.
Proof.
  induction l as [|z l IH]; cbn; [intuition congruence|].
  destruct (F64.ltb (snd x) (snd z)); cbn; rewrite ?IH; intuition congruence.
Qed.


Lemma sort_In (l : list (Z * float64)) y : In y (foldr Analysis.insert_desc [] l) <-> In y l.
Proof.
  induction l as [|x l IH]; cbn; [reflexivity|]. rewrite insert_desc_In, IH. intuition congruence.
Qed.


Lemma sort_values_desc_In l y : In y (Analysis.sort_values_desc l) <-> In y l.
Proof.
  unfold Analysis.sort_values_desc. rewrite in_app_iff, sort_In, !filter_In.
  destruct (F64.isnan (snd y)); cbn; intuition congruence.
Qed.


Lemma dt_hour_range t : (0 <= Transform.dt_hour t < 24)%Z.
Proof. unfold Transform.dt_hour. apply Z.mod_pos_bound. lia. Qed.

Lemma at_hour_In h temp r :
  In r (Analysis.at_hour h temp) <-> In r temp /\ Analysis.hour_of_day r = Some h.
Proof.
  unfold Analysis.at_hour. rewrite filter_In. rewrite bool_decide_eq_true. reflexivity.
Qed.

Lemma dropna_In df r :
  In r (Analysis.dropna_time_pm2_5 df) <->
  In r df /\ Analysis.time r <> None /\ F64.isnan (Analysis.pm2_5 r) = false.
Proof.
  unfold Analysis.dropna_time_pm2_5. rewrite filter_In, andb_true_iff, bool_decide_eq_true, negb_true_iff.
  rewrite <- not_eq_None_Some. reflexivity.
Qed.

Lemma group_nonempty_range df h : group df h <> [] -> (0 <= h < 24)%Z.
Proof.
  unfold group. destruct (Analysis.at_hour h (Analysis.dropna_time_pm2_5 df)) as [|r g] eqn:E; [cbn; congruence|].
  intros _. assert (Hr : In r (Analysis.at_hour h (Analysis.dropna_time_pm2_5 df))) by (rewrite E; left; reflexivity).
  apply at_hour_In in Hr as [_ Hr]. unfold Analysis.hour_of_day in Hr.
  destruct (Analysis.time r) as [t|]; [|discriminate]. injection Hr as <-. apply dt_hour_range.
Qed.

Lemma hour_avg_In df x :
  In x (Analysis.hour_avg (Analysis.dropna_time_pm2_5 df)) <->
  group df (fst x) <> [] /\ snd x = Analysis.mean (group df (fst x)).
Proof.
  unfold Analysis.hour_avg. rewrite <- list_elem_of_In, list_elem_of_omap. split.
  - intros (n & Hn & Hx). unfold group.
    destruct (Analysis.at_hour (Z.of_nat n) (Analysis.dropna_time_pm2_5 df)) as [|r g] eqn:E; [discriminate|].
    injection Hx as <-. cbn [fst snd]. rewrite E. split; [discriminate | reflexivity].
  - intros [Hne Hm]. pose proof (group_nonempty_range df (fst x) Hne) as Hr.
    exists (Z.to_nat (fst x)). split.
    + apply list_elem_of_In, in_seq. lia.
    + rewrite Z2Nat.id by lia. unfold group in *.
      destruct (Analysis.at_hour (fst x) (Analysis.dropna_time_pm2_5 df)) as [|r g]; [cbn in Hne; congruence|].
      destruct x as [h m]. cbn in *. subst m. reflexivity.
Qed.




Lemma count_cons k x l :
  Analysis.count k (x :: l) = ((if String.eqb k x then 1 else 0) + Analysis.count k l)%nat.
Proof. unfold Analysis.count. cbn. destruct (String.eqb k x); reflexivity. Qed.

Lemma count_pos k l : In k l <-> (0 < Analysis.count k l)%nat.
Proof.
  induction l as [|x l IH]; [cbn; split; [tauto | lia]|].
  rewrite count_cons. cbn [In]. destruct (String.eqb_spec k x) as [->|Hne].
  - split; [lia | auto].
  - rewrite IH. cbn. split; [intros [H|H]; [congruence | exact H] | auto].
Qed.








(** ** Further properties of the extract step *)

Section FetchMore.

Variable RAW_DIR : string.
Variable MAX_RETRIES : Z.

Lemma attempt_once_saved city lat lon w p :
  replies w (sent w) = Reply (Response None (inr p)) ->
  let json := RAW_DIR +:+ Extract.raw_name city (utc_stamp w) ".json" in
  write_error w json = None ->
  Extract.attempt_once RAW_DIR city lat lon w =
  (Ok (Extract.Success city json), with_file (advance w 1 [Get lat lon]) json (JsonFile p)).
Proof.
  intros Hreply json Hw.
  cbv [Extract.attempt_once bind Extract.requests_get Extract.raise_for_status
       Extract.response_json Extract._save_raw Extract._now_ts try_except write_file
       ret raise advance with_file].
  rewrite Hreply. cbn. fold json. rewrite Hw, Nat.add_1_r. reflexivity.
Qed.

Lemma fetch_loop_first_success city lat lon (j : nat) :
  forall remaining attempt last w (msg : nat -> string) p,
  (j < remaining)%nat ->
  (forall i, (i < j)%nat -> reply_error (replies w (sent w + i)) = Some (msg i)) ->
  replies w (sent w + j) = Reply (Response None (inr p)) ->
  let json := RAW_DIR +:+ Extract.raw_name city (utc_stamp w) ".json" in
  write_error w json = None ->
  Extract.fetch_loop RAW_DIR city lat lon remaining attempt last w =
  (Ok (Extract.Success city json),
   with_file (advance w (j + 1) (backoffs lat lon attempt j ++ [Get lat lon]))
             json (JsonFile p)).
Proof.
  induction j as [|j IH]; intros remaining attempt last w msg p Hj Hfail Hgood json Hw.
  - destruct remaining as [|r]; [lia|]. cbn [Extract.fetch_loop].
    rewrite Nat.add_0_r in Hgood.
    rewrite (attempt_once_saved city lat lon w p Hgood Hw). reflexivity.
  - destruct remaining as [|r]; [lia|]. cbn [Extract.fetch_loop].
    destruct (attempt_once_fails RAW_DIR city lat lon w (msg O)) as (e & He & ->).
    { rewrite <- (Hfail O) by lia. rewrite Nat.add_0_r. reflexivity. }
    unfold bind, sleep, record_event. cbn [fst snd].
    replace (attempt + 1 - 1)%Z with attempt by lia.
    match goal with |- Extract.fetch_loop _ _ _ _ _ _ _ ?w0 = _ =>
      replace w0 with (advance w 1 [Get lat lon; Sleep (2 ^ attempt)])
        by (unfold advance; cbn; rewrite <- app_assoc; reflexivity) end.
    rewrite (IH r (attempt + 1)%Z _ _ (fun i => msg (S i)) p).
    + cbn [utc_stamp advance]. fold json. f_equal.
      unfold with_file. cbn [files write_error replies sent utc_stamp local_stamp trace advance].
      rewrite backoffs_S. f_equal; [lia|]. rewrite <- !app_assoc. reflexivity.
    + lia.
    + intros i Hi. cbn [replies sent advance]. rewrite <- (Hfail (S i)) by lia.
      f_equal. f_equal. lia.
    + cbn [replies sent advance]. rewrite <- Hgood. f_equal. lia.
    + exact Hw.
Qed.

(** X2.  Retry recovers.  When the first [j] attempts fail before anything is
    saved and attempt [j + 1] gets a body that parses, with [j + 1] within
    [MAX_RETRIES] and the JSON file writable, the fetch returns a success
    naming that file.  It has then sent [j + 1] requests, slept 1, 2, ...,
    [2 ^ (j - 1)] seconds between them and not after the last, and the file
    holds the payload of the last reply. *)
Theorem fetch_city_succeeds_after_failures city lat lon (j : nat) w (msg : nat -> string) p :
  (Z.of_nat j < MAX_RETRIES)%Z ->
  (forall i, (i < j)%nat -> reply_error (replies w (sent w + i)) = Some (msg i)) ->
  replies w (sent w + j) = Reply (Response None (inr p)) ->
  let json := RAW_DIR +:+ Extract.raw_name city (utc_stamp w) ".json" in
  write_error w json = None ->
  exists w',
    Extract._fetch_city RAW_DIR MAX_RETRIES city lat lon w = (Ok (Extract.Success city json), w') /\
    sent w' = (sent w + j + 1)%nat /\
    trace w' = trace w ++ backoffs lat lon 0 j ++ [Get lat lon] /\
    sleeps_after_last_get (trace w') = [] /\
    files w' = <[json := JsonFile p]> (files w).
Proof.
  intros Hj Hfail Hgood json Hw. eexists. split.
  - unfold Extract._fetch_city.
    apply (fetch_loop_first_success city lat lon j _ _ _ w msg p); try assumption. lia.
  - cbn. split; [lia|]. split; [reflexivity|]. split; [|reflexivity].
    unfold sleeps_after_last_get. rewrite !fold_left_app. reflexivity.
Qed.

(** X4.  What the Transformer reads is what the API sent.  When a fetch
    succeeds after [j] failed attempts, the JSON file being writable,
    flattening the file named in the success result is flattening the
    payload of the successful reply. *)
Theorem fetched_file_flattens_as_the_reply
    (numeric_of_str : string -> float64) (datetime_of : list cell -> cell -> option Z)
    city lat lon (j : nat) w (msg : nat -> string) p :
  (Z.of_nat j < MAX_RETRIES)%Z ->
  (forall i, (i < j)%nat -> reply_error (replies w (sent w + i)) = Some (msg i)) ->
  replies w (sent w + j) = Reply (Response None (inr p)) ->
  write_error w (RAW_DIR +:+ Extract.raw_name city (utc_stamp w) ".json") = None ->
  exists raw_path w',
    Extract._fetch_city RAW_DIR MAX_RETRIES city lat lon w =
      (Ok (Extract.Success city raw_path), w') /\
    Transform.flatten_city_json numeric_of_str datetime_of raw_path w' =
      (match first_payload p with
       | None => Ok []
       | Some q => Transform.flatten numeric_of_str datetime_of raw_path q
       end, w').
Proof.
  intros Hj Hfail Hgood Hw. eexists _, _. split.
  - unfold Extract._fetch_city.
    apply (fetch_loop_first_success city lat lon j _ _ _ w msg p); try assumption. lia.
  - apply flatten_city_json_file. cbn. apply lookup_insert_eq.
Qed.

Lemma fetch_all_cons city lat lon rest w :
  Extract.fetch_all RAW_DIR MAX_RETRIES ((city, (lat, lon)) :: rest) w =
  match Extract._fetch_city RAW_DIR MAX_RETRIES city lat lon w with
  | (Raise e, w1) => (Raise e, w1)
  | (Ok res, w1) =>
      match Extract.fetch_all RAW_DIR MAX_RETRIES rest (advance w1 0 [Pause]) with
      | (Raise e, w') => (Raise e, w')
      | (Ok results, w') => (Ok (res :: results), w')
      end
  end.
Proof.
  cbn [Extract.fetch_all]. unfold bind.
  destruct (Extract._fetch_city RAW_DIR MAX_RETRIES city lat lon w) as [[res|e] w1];
    [|reflexivity].
  unfold record_event, advance. rewrite Nat.add_0_r.
  match goal with |- context [Extract.fetch_all _ _ rest ?w0] =>
    destruct (Extract.fetch_all RAW_DIR MAX_RETRIES rest w0) as [[results|e] w'] end;
    reflexivity.
Qed.


Lemma raw_files_all_failed results :
  forallb is_failure results = true -> Pipeline.raw_files results = [].
Proof.
  induction results as [|[c p|c e] results IH]; cbn; [reflexivity | discriminate |].
  exact IH.
Qed.

Lemma fetch_all_all_fail (cities : list (string * (float64 * float64))) :
  forall w (msg : nat -> string),
  (forall n, reply_error (replies w n) = Some (msg n)) ->
  exists results w',
    Extract.fetch_all RAW_DIR MAX_RETRIES cities w = (Ok results, w') /\
    forallb is_failure results = true /\
    files w' = files w.
Proof.
  induction cities as [|[city [lat lon]] rest IH]; intros w msg Hfail.
  - exists [], w. cbn. auto.
  - rewrite fetch_all_cons. unfold Extract._fetch_city.
    rewrite (fetch_loop_all_fail RAW_DIR city lat lon _ _ _ _ (fun i => msg (sent w + i)%nat))
      by (intros i _; apply Hfail).
    match goal with |- context [Extract.fetch_all _ _ rest ?w0] =>
      destruct (IH w0 msg) as (results & w' & -> & Hall & Hfiles); [exact Hfail|] end.
    eexists _, w'. split; [reflexivity|]. cbn [forallb is_failure]. auto.
Qed.

(** X11.  Nothing fetched, nothing transformed.  When every request of the run
    fails, [run_pipeline] exits with status 1 after the extract step and
    leaves the disk as it was: no raw file and no staged file is written. *)
Theorem run_pipeline_exits_when_every_fetch_fails
    (STAGED_DIR : string)
    (numeric_of_str : string -> float64) (datetime_of : list cell -> cell -> option Z)
    w (msg : nat -> string) :
  (forall n, reply_error (replies w n) = Some (msg n)) ->
  exists w',
    Pipeline.run_pipeline RAW_DIR MAX_RETRIES STAGED_DIR numeric_of_str datetime_of w =
      (Pipeline.Exit 1, w') /\
    files w' = files w.
Proof.
  intros Hfail. unfold Pipeline.run_pipeline, Extract.fetch_all_cities.
  destruct (fetch_all_all_fail Extract.CITIES_COORDS w msg Hfail)
    as (results & w' & -> & Hall & Hfiles).
  rewrite (raw_files_all_failed results Hall). cbn. eauto.
Qed.

End FetchMore.

(** ** The city of a row *)

Ltac each_ascii c :=
  destruct c as [[] [] [] [] [] [] [] []]; try reflexivity; try discriminate.

Lemma append_nil (b : string) : EmptyString +:+ b = b.
Proof. reflexivity. Qed.

Lemma append_cons c (a b : string) : String c a +:+ b = String c (a +:+ b).
Proof. reflexivity. Qed.

Ltac step_append := repeat first [rewrite append_nil | rewrite append_cons].

Lemma append_assoc (a b c : string) : (a +:+ b) +:+ c = a +:+ (b +:+ c).
Proof.
  induction a as [|x a IH]; step_append; [reflexivity|].
  rewrite IH. reflexivity.
Qed.

Lemma length_append (a b : string) :
  String.length (a +:+ b) = (String.length a + String.length b)%nat.
Proof. induction a as [|x a IH]; simpl; [reflexivity | rewrite IH; reflexivity]. Qed.

Lemma has_append c (a b : string) : has c (a +:+ b) = has c a || has c b.
Proof.
  unfold has. induction a as [|x a IH]; step_append; [reflexivity|].
  cbn [list_ascii_of_string existsb]. rewrite IH, orb_assoc. reflexivity.
Qed.

Lemma after_last_dir (D x : string) :
  has "/" x = false -> Str.after_last "/" ((D +:+ "/") +:+ x) = x.
Proof.
  intros Hx. induction D as [|c D IH]; step_append; cbn [Str.after_last].
  - fold (has "/" x). rewrite Hx. reflexivity.
  - fold (has "/" ((D +:+ "/") +:+ x)). rewrite !has_append.
    replace (has "/" "/") with true by reflexivity.
    rewrite orb_true_r. exact IH.
Qed.

Lemma rfind_suffix (y : string) :
  Str.rfind "." (y +:+ ".json") = Some (String.length y).
Proof.
  induction y as [|c y IH]; step_append; [reflexivity|].
  cbn [Str.rfind String.length]. rewrite IH. reflexivity.
Qed.

Lemma substring_prefix (y z : string) : String.substring 0 (String.length y) (y +:+ z) = y.
Proof.
  induction y as [|c y IH]; step_append; [destruct z; reflexivity|].
  cbn [String.length String.substring]. rewrite IH. reflexivity.
Qed.

Lemma stem_raw_file (D y : string) :
  has "/" y = false -> y <> EmptyString ->
  Str.stem ((D +:+ "/") +:+ (y +:+ ".json")) = y.
Proof.
  intros Hy Hne. unfold Str.stem.
  rewrite after_last_dir by (rewrite has_append, Hy; reflexivity).
  rewrite rfind_suffix, length_append.
  destruct y as [|c y]; [congruence|]. cbn [String.length].
  replace ((0 <? S (String.length y))%nat && _) with true.
  - apply (substring_prefix (String c y)).
  - symmetry. apply andb_true_iff. split; apply Nat.ltb_lt; cbn; lia.
Qed.

Lemma before_sep_append sep (a b : string) :
  Str.before sep (a +:+ String sep b) = Str.before sep a.
Proof.
  induction a as [|c a IH]; step_append; cbn [Str.before].
  - rewrite Ascii.eqb_refl. reflexivity.
  - destruct (Ascii.eqb c sep); [reflexivity | rewrite IH; reflexivity].
Qed.

Lemma lower_cons c s : Str.lower (String c s) = String (Str.lower_ascii c) (Str.lower s).
Proof. reflexivity. Qed.

Lemma replace_cons a b c s :
  Str.replace a b (String c s) = String (if Ascii.eqb c a then b else c) (Str.replace a b s).
Proof. reflexivity. Qed.

Lemma file_char_sep c :
  Ascii.eqb (Str.lower_ascii (if Ascii.eqb c " " then "_" else c)) "_" =
  Ascii.eqb c " " || Ascii.eqb c "_".
Proof. each_ascii c. Qed.

Lemma file_char_other c :
  Ascii.eqb c " " || Ascii.eqb c "_" = false ->
  Str.lower_ascii (if Ascii.eqb c " " then "_" else c) = Str.lower_ascii c.
Proof. each_ascii c. Qed.

Lemma file_char_slash c :
  Ascii.eqb "/" (Str.lower_ascii (if Ascii.eqb c " " then "_" else c)) = Ascii.eqb "/" c.
Proof. each_ascii c. Qed.

Lemma upper_lower_ascii c : Str.upper_ascii (Str.lower_ascii c) = Str.upper_ascii c.
Proof. each_ascii c. Qed.

Lemma lower_lower_ascii c : Str.lower_ascii (Str.lower_ascii c) = Str.lower_ascii c.
Proof. each_ascii c. Qed.

Lemma lower_idem s : Str.lower (Str.lower s) = Str.lower s.
Proof.
  induction s as [|c s IH]; [reflexivity|].
  rewrite !lower_cons, lower_lower_ascii, IH. reflexivity.
Qed.

Lemma capitalize_lower s : Str.capitalize (Str.lower s) = Str.capitalize s.
Proof.
  destruct s as [|c s]; [reflexivity|].
  rewrite lower_cons. cbn [Str.capitalize]. rewrite upper_lower_ascii, lower_idem. reflexivity.
Qed.

Lemma before_file_name city :
  Str.before "_" (Str.lower (Str.replace " " "_" city)) = Str.lower (first_word city).
Proof.
  induction city as [|c city IH]; [reflexivity|].
  rewrite replace_cons, lower_cons. cbn [Str.before first_word].
  rewrite file_char_sep.
  destruct (Ascii.eqb c " " || Ascii.eqb c "_") eqn:E; [reflexivity|].
  rewrite lower_cons, IH, file_char_other by exact E. reflexivity.
Qed.

Lemma has_slash_file_name city :
  has "/" (Str.lower (Str.replace " " "_" city)) = has "/" city.
Proof.
  unfold has. induction city as [|c city IH]; [reflexivity|].
  rewrite replace_cons, lower_cons. cbn [list_ascii_of_string existsb].
  rewrite file_char_slash, IH. reflexivity.
Qed.

(** The city read back from the name of a raw file. *)
Lemma city_of_raw_file (D city ts : string) :
  has "/" city = false -> has "/" ts = false ->
  Str.capitalize (Str.before "_" (Str.stem ((D +:+ "/") +:+ Extract.raw_name city ts ".json"))) =
  Str.capitalize (first_word city).
Proof.
  intros Hc Ht. unfold Extract.raw_name.
  set (L := Str.lower (Str.replace " " "_" city)).
  replace (L +:+ "_raw_" +:+ ts +:+ ".json") with ((L +:+ "_raw_" +:+ ts) +:+ ".json")
    by (rewrite !append_assoc; reflexivity).
  rewrite stem_raw_file.
  - change (L +:+ "_raw_" +:+ ts) with (L +:+ String "_" ("raw_" +:+ ts)).
    rewrite before_sep_append. subst L. rewrite before_file_name. apply capitalize_lower.
  - rewrite !has_append. subst L. rewrite has_slash_file_name, Hc, Ht. reflexivity.
  - destruct L; discriminate.
Qed.

Lemma upper_not_sep c : Str.is_upper c = true ->
  Ascii.eqb c " " || Ascii.eqb c "_" = false /\ Str.upper_ascii c = c /\ Ascii.eqb "/" c = false.
Proof. each_ascii c; intros _; repeat split. Qed.

Lemma lower_not_sep c : Str.is_lower c = true ->
  Ascii.eqb c " " || Ascii.eqb c "_" = false /\ Str.lower_ascii c = c /\ Ascii.eqb "/" c = false.
Proof. each_ascii c; intros _; repeat split. Qed.

Lemma small_letters s :
  forallb Str.is_lower (list_ascii_of_string s) = true ->
  first_word s = s /\ Str.lower s = s /\ has "/" s = false.
Proof.
  unfold has. induction s as [|c s IH]; [repeat split|].
  cbn [list_ascii_of_string forallb existsb first_word]. rewrite lower_cons.
  intros [Hc Hs]%andb_true_iff. destruct (lower_not_sep c Hc) as (-> & -> & ->).
  destruct (IH Hs) as (-> & -> & ->). repeat split.
Qed.

Lemma one_word_capitalised_spec city :
  one_word_capitalised city = true ->
  Str.capitalize (first_word city) = city /\ has "/" city = false.
Proof.
  destruct city as [|c s]; [discriminate|]. cbn [one_word_capitalised].
  intros [Hc Hs]%andb_true_iff. destruct (upper_not_sep c Hc) as (E & Hu & Hsl).
  destruct (small_letters s Hs) as (Hw & Hl & Hh).
  cbn [first_word]. rewrite E. cbn [Str.capitalize]. rewrite Hu, Hw, Hl.
  split; [reflexivity|]. unfold has in *. cbn [list_ascii_of_string existsb].
  rewrite Hsl, Hh. reflexivity.
Qed.

Section CityLabel.

Variable numeric_of_str : string -> float64.
Variable datetime_of : list cell -> cell -> option Z.

Lemma flatten_city json_path c hourly df :
  Transform.flatten numeric_of_str datetime_of json_path (PDict c hourly) = Ok df ->
  forall r, In r df ->
    city r = match c with
             | Some s => if String.eqb s EmptyString
                         then Str.capitalize (Str.before "_" (Str.stem json_path)) else s
             | None => Str.capitalize (Str.before "_" (Str.stem json_path))
             end.
Proof.
  cbn [Transform.flatten].
  set (city_name := match c with Some s => _ | None => _ end).
  destruct hourly as [| |m|ty]; try discriminate; try (intros [= <-] r []).
  destruct (bool_decide (m = ∅)); [intros [= <-] r []|].
  destruct (Transform.pad m) as [[hourly' data]|e]; [|discriminate].
  unfold Transform.build.
  destruct (forallb _ Transform.cols); [|discriminate].
  intros [= <-] r Hr.
  unfold Transform.dropna_all in Hr. apply filter_In in Hr as [Hr _].
  apply in_map_iff in Hr as (i & <- & _). reflexivity.
Qed.

(** X5.  The city of a row.  A payload without a city entry of its own,
    read from the raw file the Extractor names for a city, gives rows whose
    city is the first word of the city's name (what precedes its first
    space or underscore), capitalised; for a name that is one capitalised
    word this is the name itself.  The name and the time stamp are taken
    not to hold a path separator. *)
Theorem city_of_rows_is_first_word (D city ts : string) hourly df :
  has "/" city = false -> has "/" ts = false ->
  Transform.flatten numeric_of_str datetime_of
    ((D +:+ "/") +:+ Extract.raw_name city ts ".json") (PDict None hourly) = Ok df ->
  forall r, In r df ->
    Frame.city r = Str.capitalize (first_word city) /\
    (one_word_capitalised city = true -> Frame.city r = city).
Proof.
  intros Hc Ht Hdf r Hr.
  rewrite (flatten_city _ _ _ _ Hdf r Hr), city_of_raw_file by assumption.
  split; [reflexivity|]. intros H1. apply one_word_capitalised_spec, H1.
Qed.

End CityLabel.

(** ** Further properties of the transform step *)

Lemma leb_0_nonneg x : F64.leb (F64.of_Z 0) x = nonneg x.
Proof. destruct x as [s|s| |s m e]; try destruct s; reflexivity. Qed.

Lemma shr_1_nonneg mrs : (0 <= shr_m mrs)%Z -> (0 <= shr_m (shr_1 mrs))%Z.
Proof.
  destruct mrs as [m r s]. cbn. intros H.
  destruct m as [|p|p]; [cbn; lia | destruct p; cbn; lia | lia].
Qed.

Lemma iter_pos_shr_1_nonneg p : forall mrs,
  (0 <= shr_m mrs)%Z -> (0 <= shr_m (SpecFloat.iter_pos shr_1 p mrs))%Z.
Proof.
  induction p as [p IH|p IH|]; intros mrs H; cbn.
  - apply IH, IH, shr_1_nonneg, H.
  - apply IH, IH, H.
  - apply shr_1_nonneg, H.
Qed.

Lemma shr_fexp_nonneg prec emax m e l :
  (0 <= m)%Z -> (0 <= shr_m (fst (shr_fexp prec emax m e l)))%Z.
Proof.
  intros H. unfold shr_fexp, shr.
  assert (H0 : (0 <= shr_m (shr_record_of_loc m l))%Z).
  { destruct l as [|[]]; cbn; exact H. }
  destruct (fexp prec emax (Zdigits2 m + e) - e)%Z; cbn; try exact H0.
  apply iter_pos_shr_1_nonneg, H0.
Qed.

(** Rounding a positive mantissa gives zero, a positive number or plus
    infinity. *)
Lemma binary_round_aux_nonneg m e l :
  nonneg (binary_round_aux F64.prec F64.emax false (Z.pos m) e l) = true.
Proof.
  unfold binary_round_aux.
  pose proof (shr_fexp_nonneg F64.prec F64.emax (Z.pos m) e l ltac:(lia)) as H1.
  destruct (shr_fexp F64.prec F64.emax (Z.pos m) e l) as [mrs' e'].
  cbn [fst] in H1.
  assert (H2 : (0 <= round_nearest_even (shr_m mrs') (loc_of_shr_record mrs'))%Z).
  { unfold round_nearest_even. destruct (loc_of_shr_record mrs') as [|[]]; try lia.
    destruct (Z.even (shr_m mrs')); lia. }
  pose proof (shr_fexp_nonneg F64.prec F64.emax _ e' loc_Exact H2) as H3.
  destruct (shr_fexp F64.prec F64.emax
              (round_nearest_even (shr_m mrs') (loc_of_shr_record mrs')) e' loc_Exact)
    as [mrs'' e''].
  cbn [fst] in H3. destruct (shr_m mrs'') as [|p|p]; [reflexivity| |lia].
  destruct (e'' <=? F64.emax - F64.prec)%Z; reflexivity.
Qed.

Lemma binary_round_nonneg m e :
  nonneg (binary_round F64.prec F64.emax false m e) = true.
Proof.
  unfold binary_round. destruct (shl_align m e _) as [mz ez]. apply binary_round_aux_nonneg.
Qed.

Lemma mul_nonneg x m e :
  nonneg x = true -> nonneg (x * S754_finite false m e)%f64 = true.
Proof.
  destruct x as [s|s| |s mx ex]; try destruct s; try discriminate; intros _;
    try reflexivity.
  apply binary_round_aux_nonneg.
Qed.

Lemma add_nonneg x y :
  nonneg x = true -> nonneg y = true -> nonneg (x + y)%f64 = true.
Proof.
  destruct x as [sx|sx| |sx mx ex]; try destruct sx; try discriminate;
    destruct y as [sy|sy| |sy my ey]; try destruct sy; try discriminate; intros _ _;
    try reflexivity.
  unfold F64.add, SFadd, cond_Zopp, binary_normalize.
  match goal with |- context [(Z.pos ?a + Z.pos ?b)%Z] =>
    change (Z.pos a + Z.pos b)%Z with (Z.pos (a + b)) end.
  apply binary_round_nonneg.
Qed.

Lemma compute_severity_nonneg r :
  forallb nonneg (pollutants r) = true ->
  nonneg (Transform.compute_severity (labels r)) = true.
Proof.
  unfold pollutants. cbn [forallb]. rewrite !andb_true_iff.
  intros (H10 & H25 & Hco & Hno2 & Hso2 & Ho3 & _).
  unfold Transform.compute_severity, labels.
  cbn [Transform.get String.eqb Ascii.eqb Bool.eqb].
  change (F64.of_Z 5) with (S754_finite false 5629499534213120 (-50)).
  change (F64.of_Z 3) with (S754_finite false 6755399441055744 (-51)).
  change (F64.of_Z 4) with (S754_finite false 4503599627370496 (-50)).
  change (F64.of_Z 2) with (S754_finite false 4503599627370496 (-51)).
  repeat apply add_nonneg; apply mul_nonneg; assumption.
Qed.

Section FrameMore.

Variable numeric_of_str : string -> float64.
Variable datetime_of : list cell -> cell -> option Z.

Abbreviation flatten' := (Transform.flatten numeric_of_str datetime_of).
Abbreviation flatten_city_json' := (Transform.flatten_city_json numeric_of_str datetime_of).
Abbreviation flatten_each' := (Transform.flatten_each numeric_of_str datetime_of).
Abbreviation transform_all' := (Transform.transform_all numeric_of_str datetime_of).

(** The rows [flatten] returns are rows of one padded frame, under one city
    name, and none of them is empty. *)
Lemma flatten_rows json_path p df :
  flatten' json_path p = Ok df ->
  exists data city_name,
    forall r, In r df ->
      (exists i, r = Transform.row_at numeric_of_str datetime_of data city_name i) /\
      forallb F64.isnan (Transform.values r) = false.
Proof.
  destruct p as [items|c hourly|ty]; cbn [Transform.flatten]; try discriminate.
  set (city_name := match c with Some s => _ | None => _ end).
  destruct hourly as [| |m|ty]; try discriminate;
    try (intros [= <-]; exists ∅, city_name; intros r []).
  destruct (bool_decide (m = ∅)); [intros [= <-]; exists ∅, city_name; intros r []|].
  destruct (Transform.pad m) as [[hourly' data]|e]; [|discriminate].
  unfold Transform.build.
  destruct (forallb _ Transform.cols); [|discriminate].
  intros [= <-]. exists data, city_name. intros r Hr.
  unfold Transform.dropna_all in Hr. apply filter_In in Hr as [Hr Hkeep].
  apply in_map_iff in Hr as (i & <- & _). split; [eauto|].
  apply negb_true_iff, Hkeep.
Qed.

Lemma flatten_city_json_rows json_path w df :
  fst (flatten_city_json' json_path w) = Ok df ->
  exists data city_name,
    forall r, In r df ->
      (exists i, r = Transform.row_at numeric_of_str datetime_of data city_name i) /\
      forallb F64.isnan (Transform.values r) = false.
Proof.
  unfold Transform.flatten_city_json, bind, read_json, lift, ret.
  destruct (files w !! json_path) as [[p|p|rows]|]; try discriminate.
  destruct p as [[|first items]|c hourly|ty]; cbn [fst]; try apply flatten_rows.
  intros [= <-]. exists ∅, EmptyString. intros r [].
Qed.

Lemma classify_aqi_label x : In (Transform.classify_aqi x) aqi_labels.
Proof.
  unfold Transform.classify_aqi, aqi_labels.
  repeat match goal with |- context [if ?b then _ else _] => destruct b end; cbn; auto 10.
Qed.

(** X7.  The rows of one file.  All rows returned for a file carry the same
    city; the hour of a row is the hour of the day of its timestamp, between
    0 and 23, and is missing exactly when the timestamp is; its category is
    one of the five AQI labels; and at least one of its seven measured
    columns holds a value. *)
Theorem rows_of_one_file_are_well_formed json_path w df :
  fst (flatten_city_json' json_path w) = Ok df ->
  exists city_name,
    forall r, In r df ->
      city r = city_name /\
      hour r = Transform.dt_hour <$> time r /\
      (forall h, hour r = Some h -> (0 <= h < 24)%Z) /\
      (hour r = None <-> time r = None) /\
      In (AQI_category r) aqi_labels /\
      existsb (fun x => negb (F64.isnan x)) (Transform.values r) = true.
Proof.
  intros Hdf. destruct (flatten_city_json_rows _ _ _ Hdf) as (data & city_name & Hrows).
  exists city_name. intros r Hr. destruct (Hrows r Hr) as [[i ->] Hval].
  split; [reflexivity|]. split; [reflexivity|]. split; [|split; [|split]].
  - cbn [hour Transform.row_at]. intros h Hh.
    destruct (nth i _ None) as [t|]; [|discriminate]. injection Hh as <-. apply dt_hour_range.
  - cbn [hour time Transform.row_at]. destruct (nth i _ None); cbn; split; congruence.
  - apply classify_aqi_label.
  - revert Hval. generalize (Transform.values (Transform.row_at numeric_of_str datetime_of data city_name i)).
    intros l. induction l as [|x l IH]; cbn; [discriminate|].
    destruct (F64.isnan x); cbn; auto.
Qed.

(** X8.  A score that is not negative.  In a row returned by the Transformer
    whose six pollutants are all present and at least 0, the severity score
    is a number at least 0 (possibly plus infinity), never NaN. *)
Theorem severity_score_nonnegative json_path w df r :
  fst (flatten_city_json' json_path w) = Ok df ->
  In r df ->
  Forall (fun x => F64.leb (F64.of_Z 0) x = true) (pollutants r) ->
  F64.leb (F64.of_Z 0) (severity_score r) = true /\
  F64.isnan (severity_score r) = false.
Proof.
  intros Hdf Hr Hall. apply flatten_city_json_derived in Hdf.
  rewrite Forall_forall in Hdf.
  destruct (Hdf r (proj2 (list_elem_of_In _ _) Hr)) as (_ & Hsev & _).
  assert (Hn : nonneg (severity_score r) = true).
  { rewrite Hsev. apply compute_severity_nonneg. apply forallb_forall. intros x Hx.
    rewrite <- leb_0_nonneg. rewrite Forall_forall in Hall.
    apply Hall, list_elem_of_In, Hx. }
  rewrite leb_0_nonneg. split; [exact Hn|].
  destruct (severity_score r) as [s|s| |s m e]; try reflexivity. discriminate.
Qed.

Lemma flatten_each_ok paths : forall w dfs,
  Forall2 (fun path df => fst (flatten_city_json' path w) = Ok df) paths dfs ->
  flatten_each' paths w = (Ok dfs, w).
Proof.
  induction paths as [|path paths IH]; intros w dfs H; inversion H as [|? df ? dfs' Hdf Hrest]; subst.
  - reflexivity.
  - cbn [Transform.flatten_each]. unfold bind.
    pose proof (flatten_city_json_world numeric_of_str datetime_of path w) as Hw.
    destruct (flatten_city_json' path w) as [o w']. cbn in Hw, Hdf. subst.
    rewrite (IH w dfs' Hrest). reflexivity.
Qed.

(** X10.  What is staged.  Given at least one raw file, all of which flatten,
    [transform_all] writes one CSV file that holds the rows of all files, file
    after file in the order given, returns its path and changes nothing else;
    when that file cannot be written it raises the error of the write and
    the disk stays as it was.  Given no file at all it raises a ValueError. *)
Theorem transform_all_stages_the_concatenation STAGED_DIR :
  (forall paths w dfs,
     paths <> [] ->
     Forall2 (fun path df => fst (flatten_city_json' path w) = Ok df) paths dfs ->
     let staged := STAGED_DIR +:+ "air_quality_transformed_" +:+ local_stamp w +:+ ".csv" in
     match write_error w staged with
     | None =>
         transform_all' STAGED_DIR paths w =
         (Ok staged, with_file w staged (CsvFile (concat dfs)))
     | Some msg =>
         transform_all' STAGED_DIR paths w = (Raise (Exn OSError msg), w)
     end)
  /\
  (forall w, exists msg,
     transform_all' STAGED_DIR [] w = (Raise (Exn ValueError msg), w)).
Proof.
  split.
  - intros paths w dfs Hne H staged. unfold Transform.transform_all, bind.
    rewrite (flatten_each_ok paths w dfs H).
    assert (Hd : dfs <> []) by (destruct H; [congruence | discriminate]).
    destruct dfs as [|df dfs]; [congruence|].
    unfold write_file, ret, with_file. fold staged.
    destruct (write_error w staged); reflexivity.
  - intros w. eexists. reflexivity.
Qed.

End FrameMore.

Lemma leb_not_nan x y : F64.leb x y = true -> F64.isnan x = false /\ F64.isnan y = false.
Proof.
  destruct x as [sx|sx| |sx mx ex], y as [sy|sy| |sy my ey]; try discriminate; auto.
Qed.

Lemma ltb_not_nan x y : F64.ltb x y = true -> F64.isnan x = false /\ F64.isnan y = false.
Proof. intros H. apply leb_not_nan, ltb_leb, H. Qed.

Lemma ltb_not_leb x y : F64.ltb x y = true -> F64.leb y x = false.
Proof.
  unfold F64.ltb, F64.leb, SFltb, SFleb.
  destruct x as [sx|sx| |sx mx ex], y as [sy|sy| |sy my ey]; try discriminate;
    try destruct sx; try destruct sy; cbn; try (intro; first [reflexivity | discriminate]).
  - rewrite (Z.compare_antisym ex ey).
    destruct (ex ?= ey)%Z; cbn; try (intro; first [reflexivity | discriminate]).
    change (PosDef.Pos.compare_cont Eq mx my) with (Pos.compare mx my).
    change (PosDef.Pos.compare_cont Eq my mx) with (Pos.compare my mx).
    rewrite (Pos.compare_antisym mx my).
    destruct (mx ?= my)%positive; cbn; intro; first [reflexivity | discriminate].
  - rewrite (Z.compare_antisym ex ey).
    destruct (ex ?= ey)%Z; cbn; try (intro; first [reflexivity | discriminate]).
    change (PosDef.Pos.compare_cont Eq mx my) with (Pos.compare mx my).
    change (PosDef.Pos.compare_cont Eq my mx) with (Pos.compare my mx).
    rewrite (Pos.compare_antisym mx my).
    destruct (mx ?= my)%positive; cbn; intro; first [reflexivity | discriminate].
Qed.

Lemma gtb_leb_trans c x y :
  F64.gtb x c = true -> F64.leb x y = true -> F64.gtb y c = true.
Proof.
  intros Hx Hxy. change (F64.ltb c x = true) in Hx. change (F64.ltb c y = true).
  destruct (F64.ltb c y) eqn:E; [reflexivity|]. exfalso.
  destruct (ltb_not_nan _ _ Hx) as [Hc _]. destruct (leb_not_nan _ _ Hxy) as [_ Hy].
  pose proof (leb_total c y Hc Hy E) as Hyc.
  pose proof (leb_trans _ _ _ Hxy Hyc) as Hxc.
  rewrite (ltb_not_leb _ _ Hx) in Hxc. discriminate.
Qed.

(** X9.  The labels follow the measurements.  Of two severity scores the
    greater never gets the lower risk flag, and of two PM2.5 values the
    greater never gets the better AQI category. *)
Theorem labels_are_monotone (x y : float64) :
  F64.leb x y = true ->
  (risk_level (Transform.risk_classification x) <=
   risk_level (Transform.risk_classification y))%nat /\
  (aqi_level (Transform.classify_aqi x) <= aqi_level (Transform.classify_aqi y))%nat.
Proof.
  intros H. split.
  - unfold Transform.risk_classification.
    destruct (x >? F64.of_Z 400)%f64 eqn:X4.
    { rewrite (gtb_leb_trans _ _ _ X4 H). reflexivity. }
    destruct (x >? F64.of_Z 200)%f64 eqn:X2.
    { rewrite (gtb_leb_trans _ _ _ X2 H). destruct (y >? F64.of_Z 400)%f64; cbn; lia. }
    destruct (y >? F64.of_Z 400)%f64; [cbn; lia|].
    destruct (y >? F64.of_Z 200)%f64; cbn; lia.
  - unfold Transform.classify_aqi.
    pose proof (fun t => leb_trans x y t H) as Ht.
    destruct (y <=? F64.of_Z 50)%f64 eqn:Y1; [rewrite (Ht _ Y1); reflexivity|].
    destruct (x <=? F64.of_Z 50)%f64 eqn:X1; [apply Nat.le_0_l|].
    destruct (y <=? F64.of_Z 100)%f64 eqn:Y2; [rewrite (Ht _ Y2); reflexivity|].
    destruct (x <=? F64.of_Z 100)%f64 eqn:X2;
      [destruct (y <=? F64.of_Z 200)%f64; [|destruct (y <=? F64.of_Z 300)%f64]; cbn; lia|].
    destruct (y <=? F64.of_Z 200)%f64 eqn:Y3; [rewrite (Ht _ Y3); reflexivity|].
    destruct (x <=? F64.of_Z 200)%f64 eqn:X3;
      [destruct (y <=? F64.of_Z 300)%f64; cbn; lia|].
    destruct (y <=? F64.of_Z 300)%f64 eqn:Y4; [rewrite (Ht _ Y4); reflexivity|].
    destruct (x <=? F64.of_Z 300)%f64; cbn; lia.
Qed.

Lemma labels_are_monotone_witness :
  (risk_level (Transform.risk_classification (F64.of_Z 250)) <=
   risk_level (Transform.risk_classification (F64.of_Z 401)))%nat.
Proof. exact (proj1 (labels_are_monotone (F64.of_Z 250) (F64.of_Z 401) eq_refl)). Defined.

(** ** The staged file *)

Section StagedFacts.

Variable numeric_of_str : string -> float64.
Variable datetime_of : list cell -> cell -> option Z.

Lemma transform_all_written STAGED_DIR paths w staged w' :
  Transform.transform_all numeric_of_str datetime_of STAGED_DIR paths w = (Ok staged, w') ->
  exists rows, files w' !! staged = Some (CsvFile rows).
Proof.
  unfold Transform.transform_all, bind.
  destruct (Transform.flatten_each numeric_of_str datetime_of paths w) as [[dfs|e] w1];
    [|discriminate].
  destruct dfs as [|df dfs]; [discriminate|].
  unfold write_file, ret. destruct (write_error w1 _); [discriminate|].
  intros [= <- <-]. eexists. cbn [files]. apply lookup_insert_eq.
Qed.

(** X12.  A staged path is a written file.  When [run_pipeline] gets past
    its transform step, the path it hands to the load step names a CSV file
    that is on the disk. *)
Theorem staged_path_names_a_written_file RAW_DIR MAX_RETRIES STAGED_DIR w staged :
  fst (Pipeline.run_pipeline RAW_DIR MAX_RETRIES STAGED_DIR numeric_of_str datetime_of w) =
    Pipeline.Staged staged ->
  exists rows,
    files (snd (Pipeline.run_pipeline RAW_DIR MAX_RETRIES STAGED_DIR
                  numeric_of_str datetime_of w)) !! staged = Some (CsvFile rows).
Proof.
  unfold Pipeline.run_pipeline.
  destruct (Extract.fetch_all_cities RAW_DIR MAX_RETRIES w) as [[results|e] w1];
    [|discriminate].
  destruct (Pipeline.raw_files results) as [|path paths]; [discriminate|].
  destruct (Transform.transform_all numeric_of_str datetime_of STAGED_DIR (path :: paths) w1)
    as [[p|e] w2] eqn:E; [|discriminate].
  cbn [fst snd]. intros [= ->]. eapply transform_all_written, E.
Qed.

End StagedFacts.

Lemma staged_path_names_a_written_file_witness :
  exists rows,
    files (snd (Iso.run_pipeline "data/raw/" 3 "data/staged/" online)) !! staged_csv =
      Some (CsvFile rows).
Proof.
  apply (staged_path_names_a_written_file Iso.numeric_of_str Iso.datetime_of
           "data/raw/" 3 "data/staged/" online staged_csv).
  vm_compute. reflexivity.
Defined.

(** ** The city KPIs and the worst hour *)









Section CityFacts.

Variable col : Analysis.record -> float64.



End CityFacts.

(** X14.  When a worst hour is reported.  [compute_kpis] reports a worst hour
    exactly when some record has both a timestamp and a PM2.5 value; records
    that lack either never produce one. *)
Theorem worst_hour_reported_iff_complete_record (df : list Analysis.record) :
  is_Some (Analysis.kpi_worst_hour (Analysis.compute_kpis df)) <->
  exists r, In r df /\ is_Some (Analysis.time r) /\ F64.isnan (Analysis.pm2_5 r) = false.
Proof.
  assert (Hk : Analysis.kpi_worst_hour (Analysis.compute_kpis df) =
               Analysis.worst_hour_by_avg_pm2_5 df) by (destruct df; reflexivity).
  rewrite Hk. unfold Analysis.worst_hour_by_avg_pm2_5. split.
  - intros Hsome.
    destruct (Analysis.dropna_time_pm2_5 df) as [|r temp] eqn:E; [destruct Hsome; discriminate|].
    assert (Hr : In r (Analysis.dropna_time_pm2_5 df)) by (rewrite E; left; reflexivity).
    apply (proj1 (dropna_In _ _)) in Hr as (Hr & Ht & Hp).
    exists r. split; [exact Hr|]. split; [|exact Hp].
    destruct (Analysis.time r); [eauto | congruence].
  - intros (r & Hr & [t Et] & Hp).
    assert (Hin : In r (Analysis.dropna_time_pm2_5 df)).
    { apply dropna_In. split; [exact Hr|]. split; [congruence | exact Hp]. }
    destruct (Analysis.dropna_time_pm2_5 df) as [|r0 temp] eqn:E; [destruct Hin|]. rewrite <- E in *.
    assert (Hx : In (Transform.dt_hour t, Analysis.mean (group df (Transform.dt_hour t)))
                    (Analysis.hour_avg (Analysis.dropna_time_pm2_5 df))).
    { apply hour_avg_In. cbn [fst snd]. split; [|reflexivity]. unfold group. intros Hnil.
      apply map_eq_nil in Hnil.
      assert (Hr' : In r (Analysis.at_hour (Transform.dt_hour t) (Analysis.dropna_time_pm2_5 df))).
      { apply at_hour_In. split; [exact Hin|]. unfold Analysis.hour_of_day. rewrite Et. reflexivity. }
      rewrite Hnil in Hr'. destruct Hr'. }
    apply (proj2 (sort_values_desc_In _ _)) in Hx.
    destruct (Analysis.sort_values_desc _); [destruct Hx | eauto].
Qed.

(** ** The load step *)

Lemma clean_value_safe v : json_safe (Load.clean_value v) = true.
Proof.
  destruct v as [| |x| |]; try reflexivity. cbn.
  destruct (F64.isnan x || Load.isinf x) eqn:E; cbn; [reflexivity | rewrite E; reflexivity].
Qed.

Lemma clean_value_idem v : Load.clean_value (Load.clean_value v) = Load.clean_value v.
Proof.
  destruct v as [| |x| |]; try reflexivity. cbn.
  destruct (F64.isnan x || Load.isinf x) eqn:E; cbn; [reflexivity | rewrite E; reflexivity].
Qed.

Lemma clean_row_idem r : Load.clean_row (Load.clean_row r) = Load.clean_row r.
Proof.
  unfold Load.clean_row. rewrite map_map. apply map_ext. intros [k v]. cbn.
  rewrite clean_value_idem. reflexivity.
Qed.

Lemma slice_batch (records : list Load.row) k :
  Load.slice records (k * Load.BATCH_SIZE) (k * Load.BATCH_SIZE + Load.BATCH_SIZE) =
  take Load.BATCH_SIZE (drop (k * Load.BATCH_SIZE) records).
Proof. unfold Load.slice. f_equal. lia. Qed.

Lemma n_batches_spec n :
  (n_batches n * Load.BATCH_SIZE < n + Load.BATCH_SIZE /\ n <= n_batches n * Load.BATCH_SIZE)%nat.
Proof.
  unfold n_batches, Load.BATCH_SIZE.
  pose proof (Nat.div_mod_eq (n + 200 - 1) 200) as H.
  pose proof (Nat.mod_upper_bound (n + 200 - 1) 200 ltac:(lia)) as Hm. lia.
Qed.

Lemma sent_batch_length records k :
  (k < n_batches (length records))%nat ->
  (0 < length (sent_batch records k) <= Load.BATCH_SIZE)%nat.
Proof.
  intros Hk. unfold sent_batch. rewrite length_map, length_take, length_drop.
  pose proof (n_batches_spec (length records)) as [Hlt _].
  unfold Load.BATCH_SIZE in *. nia.
Qed.

Lemma batches_concat (records : list Load.row) m :
  concat (map (sent_batch records) (seq 0 m)) =
  map Load.clean_row (take (m * Load.BATCH_SIZE) records).
Proof.
  induction m as [|m IH]; [reflexivity|].
  rewrite seq_S, map_app, concat_app, IH. cbn [map concat]. rewrite app_nil_r.
  unfold sent_batch. rewrite <- map_app, take_take_drop. do 2 f_equal. lia.
Qed.

Lemma insert_batches_spec records m : forall a s,
  (forall k, (a <= k < a + m)%nat -> sent_batch records k <> []) ->
  Load.insert_batches records (map (fun k => k * Load.BATCH_SIZE) (seq a m)) s =
  (Load.Loaded,
   Load.Db (Load.table s ++
              concat (map (fun k => match Load.insert_error s (Load.inserts s + k) with
                                  | Some _ => []
                                  | None => sent_batch records (a + k)
                                  end) (seq 0 m)))
           (Load.inserts s + m) (Load.insert_error s)).
Proof.
  induction m as [|m IH]; intros a s Hne.
  - cbn. rewrite app_nil_r, Nat.add_0_r. destruct s; reflexivity.
  - cbn [seq map Load.insert_batches]. rewrite slice_batch. fold (sent_batch records a).
    assert (Ha : sent_batch records a <> []) by (apply Hne; lia).
    assert (Hshift : forall (err : nat -> option string) n0,
              map (fun k => match err (n0 + k) with Some _ => [] | None => sent_batch records (a + k) end) (seq 1 m) =
              map (fun k => match err (S n0 + k) with Some _ => [] | None => sent_batch records (S a + k) end) (seq 0 m)).
    { intros err n0. rewrite <- seq_shift, map_map. apply map_ext. intros k.
      rewrite !Nat.add_succ_r. reflexivity. }
    unfold Load.insert. rewrite Nat.add_0_r.
    destruct (Load.insert_error s (Load.inserts s)) as [msg|] eqn:E.
    + destruct (sent_batch records a) as [|r0 b] eqn:Eb; [congruence|].
      rewrite IH by (intros k Hk; apply Hne; lia). cbn [Load.table Load.inserts Load.insert_error].
      rewrite Hshift. cbn [concat app]. rewrite Nat.add_succ_r. reflexivity.
    + rewrite IH by (intros k Hk; apply Hne; lia). cbn [Load.table Load.inserts Load.insert_error].
      rewrite Hshift. cbn [concat]. rewrite <- app_assoc, Nat.add_succ_r, (Nat.add_0_r a). reflexivity.
Qed.

Lemma load_records_spec records s :
  Load.load_records records s =
  (Load.Loaded,
   Load.Db (Load.table s ++
              concat (accepted records (Load.insert_error s) (Load.inserts s)
                               (n_batches (length records))))
           (Load.inserts s + n_batches (length records)) (Load.insert_error s)).
Proof.
  unfold Load.load_records, Load.range_step. fold (n_batches (length records)).
  rewrite insert_batches_spec; [reflexivity|].
  intros k Hk Hnil. pose proof (sent_batch_length records k ltac:(lia)) as Hl.
  rewrite Hnil in Hl. cbn in Hl. lia.
Qed.

(** X15.  The batches.  The loader sends the cleaned records in
    ceil(n / 200) inserts, each of 1 to 200 records; the batches, one after
    the other, are the cleaned records in their order.  It never reads the
    first row of an empty batch, and a failed insert does not stop the
    loop: afterwards the table has gained exactly the batches whose insert
    was accepted. *)
Theorem load_sends_every_batch (records : list Load.row) (s : Load.db) :
  let m := n_batches (length records) in
  exists s',
    Load.load_records records s = (Load.Loaded, s') /\
    Load.inserts s' = (Load.inserts s + m)%nat /\
    Load.table s' =
      Load.table s ++ concat (accepted records (Load.insert_error s) (Load.inserts s) m) /\
    (forall k, (k < m)%nat -> (0 < length (sent_batch records k) <= 200)%nat) /\
    concat (map (sent_batch records) (seq 0 m)) = map Load.clean_row records.
Proof.
  intros m. eexists. split; [apply load_records_spec|]. cbn [Load.inserts Load.table].
  split; [reflexivity|]. split; [reflexivity|]. split.
  - intros k Hk. apply sent_batch_length, Hk.
  - rewrite batches_concat, take_ge; [reflexivity|]. apply n_batches_spec.
Qed.

(** X16.  An accepting database gets every record.  When no insert of the
    run fails, the table gains the cleaned records, all of them and in their
    order. *)
Theorem load_without_errors_appends_all (records : list Load.row) (s : Load.db) :
  (forall n, Load.insert_error s n = None) ->
  Load.load_records records s =
  (Load.Loaded,
   Load.Db (Load.table s ++ map Load.clean_row records)
           (Load.inserts s + n_batches (length records)) (Load.insert_error s)).
Proof.
  intros Hok. rewrite load_records_spec. do 2 f_equal. f_equal.
  unfold accepted.
  rewrite (map_ext _ (sent_batch records)) by (intros k; rewrite Hok; reflexivity).
  rewrite batches_concat, take_ge; [reflexivity|]. apply n_batches_spec.
Qed.

(** X17.  No NaN reaches the database.  Whatever the records hold and
    whichever inserts fail, every row the loader adds to the table is a
    cleaned record: it has no cell that is NaN or infinite, and cleaning it
    again changes nothing. *)
Theorem loaded_rows_are_clean (records : list Load.row) (s : Load.db) :
  exists added,
    Load.table (snd (Load.load_records records s)) = Load.table s ++ added /\
    forall r, In r added ->
      In r (map Load.clean_row records) /\
      Load.clean_row r = r /\
      forallb (fun kv => json_safe (snd kv)) r = true.
Proof.
  rewrite load_records_spec. cbn [snd Load.table]. eexists. split; [reflexivity|].
  intros r Hr. apply in_concat in Hr as (b & Hb & Hr).
  unfold accepted in Hb. apply in_map_iff in Hb as (k & <- & _).
  destruct (Load.insert_error s (Load.inserts s + k)); [destruct Hr|].
  unfold sent_batch in Hr. apply in_map_iff in Hr as (r0 & <- & Hr0).
  split; [|split].
  - apply in_map. apply list_elem_of_In. apply list_elem_of_In in Hr0.
    eapply subseteq_drop, subseteq_take, Hr0.
  - apply clean_row_idem.
  - unfold Load.clean_row. rewrite forallb_forall. intros kv Hkv.
    apply in_map_iff in Hkv as (kv0 & <- & _). apply clean_value_safe.
Qed.

(** ** Examples *)


Lemma fetch_city_succeeds_after_failures_witness :
  exists w',
    Extract._fetch_city "data/raw/" 3 "Delhi" delhi_lat delhi_lon flaky =
      (Ok (Extract.Success "Delhi" delhi_json), w') /\
    sent w' = 2%nat /\
    trace w' = [Get delhi_lat delhi_lon; Sleep 1; Get delhi_lat delhi_lon] /\
    files w' !! delhi_json = Some (JsonFile scenario_A).
Proof.
  destruct (fetch_city_succeeds_after_failures "data/raw/" 3 "Delhi" delhi_lat delhi_lon
              1 flaky (fun _ => timed_out) scenario_A)
    as (w' & Hrun & Hsent & Htrace & _ & Hfiles).
  - lia.
  - intros [|i] Hi; [reflexivity | lia].
  - reflexivity.
  - reflexivity.
  - exists w'. split; [exact Hrun|]. split; [exact Hsent|]. split; [exact Htrace|].
    rewrite Hfiles. apply lookup_insert_eq.
Defined.

Lemma fetched_file_flattens_as_the_reply_witness :
  exists raw_path w',
    Extract._fetch_city "data/raw/" 3 "Delhi" delhi_lat delhi_lon flaky =
      (Ok (Extract.Success "Delhi" raw_path), w') /\
    Iso.flatten_city_json raw_path w' =
      (Transform.flatten Iso.numeric_of_str Iso.datetime_of raw_path scenario_A, w').
Proof.
  apply (fetched_file_flattens_as_the_reply "data/raw/" 3 Iso.numeric_of_str Iso.datetime_of
           "Delhi" delhi_lat delhi_lon 1 flaky (fun _ => timed_out) scenario_A).
  - lia.
  - intros [|i] Hi; [reflexivity | lia].
  - reflexivity.
  - reflexivity.
Defined.

Lemma run_pipeline_exits_when_every_fetch_fails_witness :
  exists w',
    Iso.run_pipeline "data/raw/" 3 "data/staged/" offline = (Pipeline.Exit 1, w') /\
    files w' = ∅.
Proof.
  apply (run_pipeline_exits_when_every_fetch_fails "data/raw/" 3 "data/staged/"
           Iso.numeric_of_str Iso.datetime_of offline (fun _ => timed_out)).
  intros n. reflexivity.
Defined.

Lemma rows_of_one_file_are_well_formed_witness :
  exists df,
    fst (Iso.flatten_city_json delhi_json (on_disk delhi_json scenario_A)) = Ok df /\
    length df = 1%nat /\
    exists city_name,
      forall r, In r df ->
        city r = city_name /\
        hour r = Transform.dt_hour <$> time r /\
        (forall h, hour r = Some h -> (0 <= h < 24)%Z) /\
        (hour r = None <-> time r = None) /\
        In (AQI_category r) aqi_labels /\
        existsb (fun x => negb (F64.isnan x)) (Transform.values r) = true.
Proof.
  eexists. split; [vm_compute; reflexivity|]. split; [reflexivity|].
  apply (rows_of_one_file_are_well_formed Iso.numeric_of_str Iso.datetime_of
           delhi_json (on_disk delhi_json scenario_A)).
  vm_compute. reflexivity.
Defined.

Lemma severity_score_nonnegative_witness :
  exists r,
    fst (Iso.flatten_city_json delhi_json (on_disk delhi_json full_reading)) = Ok [r] /\
    F64.leb (F64.of_Z 0) (severity_score r) = true /\
    F64.isnan (severity_score r) = false.
Proof.
  eexists. split; [vm_compute; reflexivity|].
  refine (severity_score_nonnegative Iso.numeric_of_str Iso.datetime_of
            delhi_json (on_disk delhi_json full_reading) [_] _ _ _ _).
  - vm_compute. reflexivity.
  - left. reflexivity.
  - repeat constructor.
Defined.

Lemma transform_all_stages_the_concatenation_witness :
  exists df,
    fst (Iso.flatten_city_json delhi_json (on_disk delhi_json scenario_A)) = Ok df /\
    Iso.transform_all "data/staged/" [delhi_json] (on_disk delhi_json scenario_A) =
      (Ok staged_csv, with_file (on_disk delhi_json scenario_A) staged_csv (CsvFile (df ++ []))).
Proof.
  eexists. split; [vm_compute; reflexivity|].
  match goal with |- context [CsvFile (?df ++ [])] =>
    pose proof (proj1 (transform_all_stages_the_concatenation
                         Iso.numeric_of_str Iso.datetime_of "data/staged/")
                      [delhi_json] (on_disk delhi_json scenario_A) [df]) as H
  end.
  apply H.
  - discriminate.
  - constructor; [vm_compute; reflexivity | constructor].
Defined.


Lemma load_without_errors_appends_all_witness :
  Load.load_records three_records empty_db =
  (Load.Loaded, Load.Db (map Load.clean_row three_records) 1 (fun _ => None)) /\
  map Load.clean_row three_records =
  [ [("city", Load.VStr "Delhi"); ("pm2_5", Load.VNone); ("pm10", Load.VNone)];
    [("city", Load.VStr "Delhi"); ("pm2_5", Load.VFloat (F64.of_Z 60)); ("pm10", Load.VNone)];
    [("city", Load.VStr "Mumbai"); ("pm2_5", Load.VFloat (F64.of_Z 12)); ("pm10", Load.VInt 7)] ].
Proof.
  split; [|reflexivity].
  apply (load_without_errors_appends_all three_records empty_db).
  intros n. reflexivity.
Defined.

Lemma city_of_rows_is_first_word_witness :
  exists r,
    Transform.flatten Iso.numeric_of_str Iso.datetime_of
      "data/raw/new_delhi_raw_20240101T000000Z.json" uv_only = Ok [r] /\
    city r = "New".
Proof.
  eexists. split; [vm_compute; reflexivity|].
  refine (proj1 (city_of_rows_is_first_word Iso.numeric_of_str Iso.datetime_of
                   "data/raw" "New Delhi" "20240101T000000Z" (HDict uv_only_hourly)
                   [_] _ _ _ _ _)).
  - reflexivity.
  - reflexivity.
  - vm_compute. reflexivity.
  - left. reflexivity.
Defined.

